(** * Geospatial points service: a shallow embedding of [app/]

    The development follows the Python package file by file:
    [schemas.py], [models.py], [db.py], [crud.py] and [routes.py].
    The libraries the package calls (shapely, geoalchemy2, SQLAlchemy, the
    spatial engine, FastAPI) are modelled at the interface the package uses;
    every such model says so in its comment. *)

From Stdlib Require Import ZArith String Ascii List Lia Bool.
From Stdlib Require Import Sorting.Sorted Sorting.Permutation.
From stdpp Require Import base list sorting.
From stdpp Require Import gmap strings.

Import ListNotations.
Local Open Scope string_scope.
Local Open Scope list_scope.
Local Open Scope Z_scope.

(** ** Python [float]

    Ordinates, values and query bounds are Python floats.  A float is
    modelled by the finite decimal [mant / 10 ^ frac] it is written as;
    NaN, the infinities and binary rounding are outside the model, so the
    model is exact for decimals of at most 15 significant digits and no
    statement below speaks of longer ones.  The comparisons are the exact
    ones on these decimals. *)

Record float := mkFloat { mant : Z; frac : nat }.

Definition pow10 (k : nat) : Z := 10 ^ Z.of_nat k.

Definition float_le (a b : float) : bool :=
  mant a * pow10 (frac b) <=? mant b * pow10 (frac a).

Definition float_lt (a b : float) : bool :=
  mant a * pow10 (frac b) <? mant b * pow10 (frac a).

(** Python's [a >= b] and [a > b]. *)
Definition float_ge (a b : float) : bool := float_le b a.
Definition float_gt (a b : float) : bool := float_lt b a.

Definition float_eqb (a b : float) : bool :=
  mant a * pow10 (frac b) =? mant b * pow10 (frac a).

Definition float_of_Z (z : Z) : float := mkFloat z 0.

Definition float_min (a b : float) : float := if float_le a b then a else b.
Definition float_max (a b : float) : float := if float_le a b then b else a.

(** ** shapely geometries and geoalchemy2's [WKBElement]

    Of shapely's geometry kinds only the two-dimensional point and, as
    one kind that is not a point, the line string are modelled; polygons,
    collections, empty geometries and Z or M ordinates are not. *)

Inductive shape :=
| Point (x y : float)
| LineString (coords : list (float * float)).

(** [WKBElement]: a geometry in the engine's binary form together with its
    SRID.  The binary payload is represented by the geometry it encodes, so
    [from_shape] followed by [to_shape] is the identity, as WKB writing
    followed by WKB reading is. *)
Record WKBElement := mkWKBElement { data : shape; srid : Z }.

Definition from_shape (s : shape) (srid : Z) : WKBElement :=
  mkWKBElement s srid.

Definition to_shape (e : WKBElement) : shape := data e.

(** ** Exceptions and results *)

Inductive exn :=
| GEOSException                      (* raised by [shapely.wkt.loads] *)
| SQLAlchemyError (msg : string)     (* raised by the session *)
| HTTPException (status_code : Z) (detail : string)
| RequestValidationError (loc : string)
| ResponseValidationError (loc : string).

Inductive result (A : Type) :=
| Ok (a : A)
| Raise (e : exn).
Arguments Ok {A} a.
Arguments Raise {A} e.

Definition is_ok {A} (r : result A) : bool :=
  match r with Ok _ => true | Raise _ => false end.

(** ** [schemas.py] *)

Record ExamplePointCreate := mkCreate { c_geom : string; c_value : float }.

Definition datetime := Z.

Record ExamplePointModel := mkModel {
  m_id : Z;
  m_created_at : option datetime;
  m_geom : string;
  m_value : float }.

(** ** [models.py] *)

(** An instance of the mapped class [ExamplePoint].  [id] and [created_at]
    are [None] until the row has been written. *)
Record ExamplePoint := mkExamplePoint {
  id : option Z;
  created_at : option datetime;
  geom : WKBElement;
  value : float }.

(** A value of the column [Geometry("POINT", srid=4326)]: the column type
    admits points only; the SRID is kept as data. *)
Record Geometry := mkGeometry { g_x : float; g_y : float; g_srid : Z }.

(** A row of table [example_point]. *)
Record Row := mkRow {
  row_id : Z;
  row_created_at : datetime;
  row_geom : Geometry;
  row_value : float }.

Definition column_srid : Z := 4326.

(** The defaults of the columns [created_at] (the [lambda] of the model)
    and [id].  The key is generated by the engine; the model takes
    SQLite's rule, 1 for an empty table and otherwise one more than the
    largest key in the table, without the bound of the integer column.
    Other engines draw the key from a sequence, so the properties below
    use the key only as the key of the row that was written. *)
Definition created_at_default (now : datetime) : datetime := now.

Fixpoint max_id (t : list Row) : Z :=
  match t with
  | [] => 0
  | [r] => row_id r
  | r :: t' => Z.max (row_id r) (max_id t')
  end.

Definition id_default (t : list Row) : Z := max_id t + 1.

(** What the column type accepts: a point tagged with the column's SRID.
    The ordinates are stored as they are; the rounding that the bind
    applies to ordinates of more than 15 significant digits is not
    modelled.  What the engine does with another kind of geometry is a
    rule of the engine; the package itself never inspects the kind. *)
Definition geom_bind (e : WKBElement) : result Geometry :=
  match data e with
  | Point x y =>
      if srid e =? column_srid then Ok (mkGeometry x y (srid e))
      else Raise (SQLAlchemyError "geometry SRID does not match column SRID")
  | LineString _ =>
      Raise (SQLAlchemyError "geometry type does not match column type")
  end.

(** What a row is loaded as. *)
Definition geom_result (g : Geometry) : WKBElement :=
  mkWKBElement (Point (g_x g) (g_y g)) (g_srid g).

Definition load (r : Row) : ExamplePoint :=
  mkExamplePoint (Some (row_id r)) (Some (row_created_at r))
                 (geom_result (row_geom r)) (row_value r).

(** ** The spatial engine

    [ST_MakeEnvelope] builds the rectangle with the two given corners and
    [ST_Intersects] of a point and that rectangle holds when the point lies
    in the closed rectangle.  (Engine functions, not part of the package.) *)

Record Envelope := mkEnvelope {
  xmin : float; ymin : float; xmax : float; ymax : float; env_srid : Z }.

Definition ST_MakeEnvelope (x0 y0 x1 y1 : float) (srid : Z) : Envelope :=
  mkEnvelope x0 y0 x1 y1 srid.

Definition ST_Intersects (g : Geometry) (e : Envelope) : bool :=
  float_le (float_min (xmin e) (xmax e)) (g_x g)
  && float_le (g_x g) (float_max (xmin e) (xmax e))
  && float_le (float_min (ymin e) (ymax e)) (g_y g)
  && float_le (g_y g) (float_max (ymin e) (ymax e)).

(** The statements the package builds: [select(ExamplePoint)] with an
    optional [where] and an optional [order_by(ExamplePoint.id)]. *)
Inductive Criterion :=
| intersects_geom (e : Envelope)     (* func.ST_Intersects(ExamplePoint.geom, e) *)
| id_is (i : Z).                     (* primary-key lookup of [refresh] *)

Record Select := mkSelect { whereclause : option Criterion; order_by_id : bool }.

Definition select_ExamplePoint : Select := mkSelect None false.
Definition where_ (c : Criterion) (q : Select) : Select :=
  mkSelect (Some c) (order_by_id q).
Definition order_by_ExamplePoint_id (q : Select) : Select :=
  mkSelect (whereclause q) true.

Inductive Statement :=
| SELECT (q : Select)
| INSERT (o : ExamplePoint).

Definition eval_criterion (c : Criterion) (r : Row) : bool :=
  match c with
  | intersects_geom e => ST_Intersects (row_geom r) e
  | id_is i => row_id r =? i
  end.

Definition row_id_le (r1 r2 : Row) : Prop := row_id r1 <= row_id r2.

#[global] Instance row_id_le_dec : RelDecision row_id_le.
Proof. intros r1 r2. unfold row_id_le. apply Z_le_dec. Defined.

(** Rows come back in the table's physical order unless the statement
    orders them. *)
Definition run_select (q : Select) (t : list Row) : list Row :=
  let rows := match whereclause q with
              | None => t
              | Some c => List.filter (eval_criterion c) t
              end in
  if order_by_id q then merge_sort row_id_le rows else rows.

(** ** The world: database, Python objects, session, clock *)

Record Database := mkDatabase {
  table : list Row;                 (* example_point, in physical order *)
  statements : list Statement }.    (* every statement sent to the engine *)

Record World := mkWorld {
  database : Database;
  heap : list ExamplePoint;         (* mapped objects, by reference *)
  pending : list nat;               (* the session's new objects *)
  clock : datetime;                 (* datetime.now(timezone.utc) *)
  opened : nat;                     (* sessions created *)
  closed : nat }.                   (* sessions closed *)

Definition set_database (d : Database) (w : World) : World :=
  mkWorld d (heap w) (pending w) (clock w) (opened w) (closed w).
Definition set_heap (h : list ExamplePoint) (w : World) : World :=
  mkWorld (database w) h (pending w) (clock w) (opened w) (closed w).
Definition set_pending (p : list nat) (w : World) : World :=
  mkWorld (database w) (heap w) p (clock w) (opened w) (closed w).

Definition log_statement (s : Statement) (d : Database) : Database :=
  mkDatabase (table d) (statements d ++ [s]).
Definition set_table (t : list Row) (d : Database) : Database :=
  mkDatabase t (statements d).

(** A computation may read and write the world and may raise. *)
Definition M (A : Type) : Type := World -> result A * World.

Definition ret {A} (a : A) : M A := fun w => (Ok a, w).
Definition raise {A} (e : exn) : M A := fun w => (Raise e, w).
Definition bind {A B} (m : M A) (k : A -> M B) : M B :=
  fun w => match m w with
           | (Ok a, w') => k a w'
           | (Raise e, w') => (Raise e, w')
           end.
Definition lift {A} (r : result A) : M A := fun w => (r, w).

(** [try: body finally: fin]. *)
Definition try_finally {A} (body : M A) (fin : M unit) : M A :=
  fun w => match body w with
           | (r, w') => match fin w' with
                        | (Ok _, w'') => (r, w'')
                        | (Raise e, w'') => (Raise e, w'')
                        end
           end.

Declare Scope py_scope.
Delimit Scope py_scope with py.
Notation "x <- m ;; k" := (bind m (fun x => k))
  (at level 100, m at next level, right associativity) : py_scope.
Notation "m ;;; k" := (bind m (fun _ => k))
  (at level 100, right associativity) : py_scope.
Local Open Scope py_scope.

(** ** SQLAlchemy's [Session], as far as the package uses it *)

Definition Session := nat.

(** [SessionLocal()]: a new session, with nothing pending. *)
Definition SessionLocal : M Session :=
  fun w => (Ok (opened w),
            mkWorld (database w) (heap w) [] (clock w) (S (opened w)) (closed w)).

(** [db.close()]: releases the session and forgets what was pending. *)
Definition close (db : Session) : M unit :=
  fun w => (Ok tt,
            mkWorld (database w) (heap w) [] (clock w) (opened w) (S (closed w))).

(** [ExamplePoint(geom=..., value=...)]: a new transient object. *)
Definition new_ExamplePoint (g : WKBElement) (v : float) : M nat :=
  fun w => (Ok (length (heap w)),
            set_heap (heap w ++ [mkExamplePoint None None g v]) w).

Definition deref (h : nat) : M ExamplePoint :=
  fun w => match heap w !! h with
           | Some o => (Ok o, w)
           | None => (Raise (SQLAlchemyError "detached instance"), w)
           end.

(** [db.add(obj)]. *)
Definition add (db : Session) (h : nat) : M unit :=
  fun w => (Ok tt, set_pending (pending w ++ [h]) w).

(** One INSERT: the statement reaches the engine, which applies the column
    defaults and the column type of [geom]. *)
Definition insert (o : ExamplePoint) (w : World) : result Row * World :=
  let d := log_statement (INSERT o) (database w) in
  match geom_bind (geom o) with
  | Raise e => (Raise e, set_database d w)
  | Ok g =>
      let r := mkRow (match id o with Some i => i | None => id_default (table d) end)
                     (match created_at o with
                      | Some t => t
                      | None => created_at_default (clock w)
                      end)
                     g (value o) in
      (Ok r, set_database (set_table (table d ++ [r]) d) w)
  end.

(** The flush of the pending objects, in the order they were added; the
    inserted key and the defaults are written back to each object. *)
Fixpoint flush (hs : list nat) (w : World) : result unit * World :=
  match hs with
  | [] => (Ok tt, w)
  | h :: hs' =>
      match heap w !! h with
      | None => flush hs' w
      | Some o =>
          match insert o w with
          | (Raise e, w') => (Raise e, w')
          | (Ok r, w') =>
              flush hs'
                (set_heap (<[h := mkExamplePoint (Some (row_id r))
                                    (Some (row_created_at r)) (geom o) (value o)]>
                             (heap w')) w')
          end
      end
  end.

(** [db.commit()]: the flush inside one transaction; when a statement
    fails the transaction is rolled back and the error propagates. *)
Definition commit (db : Session) : M unit :=
  fun w => match flush (pending w) w with
           | (Ok _, w') => (Ok tt, set_pending [] w')
           | (Raise e, w') =>
               (Raise e, set_database (set_table (table (database w)) (database w')) w')
           end.

(** [db.refresh(obj)]: reloads the object from its row. *)
Definition refresh (db : Session) (h : nat) : M unit :=
  fun w =>
    match heap w !! h with
    | None => (Raise (SQLAlchemyError "detached instance"), w)
    | Some o =>
        match id o with
        | None => (Raise (SQLAlchemyError "instance is not persistent"), w)
        | Some i =>
            let q := where_ (id_is i) select_ExamplePoint in
            let w' := set_database (log_statement (SELECT q) (database w)) w in
            match run_select q (table (database w)) with
            | r :: _ => (Ok tt, set_heap (<[h := load r]> (heap w')) w')
            | [] => (Raise (SQLAlchemyError "could not refresh instance"), w')
            end
        end
    end.

(** [db.execute(stmt).scalars().all()], on an engine that can be reached:
    a statement that cannot be executed is not modelled. *)
Definition execute_scalars_all (db : Session) (q : Select) : M (list ExamplePoint) :=
  fun w => (Ok (map load (run_select q (table (database w)))),
            set_database (log_statement (SELECT q) (database w)) w).

(** ** [db.py] *)

(** [get_db], as a dependency of an endpoint: the session is created, the
    endpoint runs with it, and [finally] the session is closed. *)
Definition get_db {A} (endpoint : Session -> M A) : M A :=
  db <- SessionLocal ;;
  try_finally (endpoint db) (close db).

(** ** shapely's WKT reader and writer, as an interface *)

Class Shapely := {
  wkt_loads : string -> result shape;      (* shapely.wkt.loads *)
  wkt : shape -> string }.                 (* the [.wkt] property *)

Section App.
Context `{Shapely}.

(** ** [schemas.py]: [ExamplePointModel] *)

Definition convert_wkb_to_wkt (v : WKBElement + string) : string :=
  match v with
  | inl e => wkt (to_shape e)
  | inr s => s
  end.

(** [ExamplePointModel.model_validate(obj)] with [from_attributes]: [id] is
    a required [int], [created_at] is optional, [geom] goes through the
    validator. *)
Definition model_validate (o : ExamplePoint) : result ExamplePointModel :=
  match id o with
  | None => Raise (ResponseValidationError "id")
  | Some i =>
      Ok (mkModel i (created_at o) (convert_wkb_to_wkt (inl (geom o))) (value o))
  end.

Fixpoint model_validate_list (os : list ExamplePoint) : result (list ExamplePointModel) :=
  match os with
  | [] => Ok []
  | o :: os' =>
      match model_validate o, model_validate_list os' with
      | Ok m, Ok ms => Ok (m :: ms)
      | Raise e, _ => Raise e
      | _, Raise e => Raise e
      end
  end.

(** ** [crud.py] *)

Definition create_example_point (db : Session) (data : ExamplePointCreate)
  : M ExamplePoint :=
  shp <- lift (wkt_loads (c_geom data)) ;;
  let point_geom := from_shape shp 4326 in
  db_obj <- new_ExamplePoint point_geom (c_value data) ;;
  add db db_obj ;;;
  commit db ;;;
  refresh db db_obj ;;;
  deref db_obj.

Definition get_all_example_points (db : Session) : M (list ExamplePoint) :=
  execute_scalars_all db select_ExamplePoint.

Definition get_example_points_in_bbox (db : Session)
    (min_lat max_lat min_lon max_lon : float) : M (list ExamplePoint) :=
  let envelope := ST_MakeEnvelope min_lon min_lat max_lon max_lat 4326 in
  let stmt :=
    order_by_ExamplePoint_id
      (where_ (intersects_geom envelope) select_ExamplePoint) in
  execute_scalars_all db stmt.

(** ** [routes.py] *)

Definition create_point (payload : ExamplePointCreate) (db : Session)
  : M ExamplePoint :=
  create_example_point db payload.

Definition read_points (db : Session) : M (list ExamplePoint) :=
  get_all_example_points db.

Definition read_points_in_bbox (min_lat max_lat min_lon max_lon : float)
    (db : Session) : M (list ExamplePoint) :=
  if float_gt min_lat max_lat then
    raise (HTTPException 422 "min_lat must be <= max_lat")
  else if float_gt min_lon max_lon then
    raise (HTTPException 422 "min_lon must be <= max_lon")
  else
    get_example_points_in_bbox db min_lat max_lat min_lon max_lon.

(** The [Query(ge=..., le=...)] constraint of one parameter: the list of
    the parameters that violate theirs. *)
Definition Query (name : string) (ge le : float) (v : float) : list string :=
  if float_ge v ge && float_le v le then [] else [name].

Definition bbox_query_errors (min_lat max_lat min_lon max_lon : float) : list string :=
  Query "min_lat" (float_of_Z (-90)) (float_of_Z 90) min_lat
  ++ Query "max_lat" (float_of_Z (-90)) (float_of_Z 90) max_lat
  ++ Query "min_lon" (float_of_Z (-180)) (float_of_Z 180) min_lon
  ++ Query "max_lon" (float_of_Z (-180)) (float_of_Z 180) max_lon.

(** The three operations as the router serves them: dependencies are
    solved first ([get_db]), then the parameters are validated, then the
    function runs and its result is converted to the response model. *)
Definition POST_points (payload : ExamplePointCreate) : M ExamplePointModel :=
  get_db (fun db =>
    o <- create_point payload db ;;
    lift (model_validate o)).

Definition GET_points : M (list ExamplePointModel) :=
  get_db (fun db =>
    os <- read_points db ;;
    lift (model_validate_list os)).

Definition GET_points_bbox (min_lat max_lat min_lon max_lon : float)
  : M (list ExamplePointModel) :=
  get_db (fun db =>
    match bbox_query_errors min_lat max_lat min_lon max_lon with
    | [] =>
        os <- read_points_in_bbox min_lat max_lat min_lon max_lon db ;;
        lift (model_validate_list os)
    | e :: es => raise (RequestValidationError (String.concat "," (e :: es)))
    end).

End App.

(** ** A model of shapely's WKT reader and writer (GEOS)

    A fragment of the reader and of the writer, used below only to run
    the package on concrete texts.  The reader covers the two-dimensional
    [POINT] and [LINESTRING] texts with plain decimal ordinates: the
    keyword in any letter case, optional blanks between tokens, a sign,
    digits and an optional fraction.  The writer prints the keyword, a
    blank, and the ordinates in parentheses, each ordinate with its
    trailing zeros trimmed.  The fragment agrees with the library on
    ordinates of at most 15 significant digits and of magnitude between
    0.0001 and 10^15, and zero.  Outside it the library does more than the
    model: it reads other kinds, [EMPTY], Z and M ordinates and exponents,
    which the model refuses, and it writes small and large ordinates with
    an exponent and at most 16 significant digits.  Every property that
    holds for all texts is stated for an arbitrary reader and writer and
    does not rest on this fragment. *)

Module GEOS.

Definition is_space (c : ascii) : bool :=
  let n := nat_of_ascii c in
  (n =? 32)%nat || (n =? 9)%nat || (n =? 10)%nat || (n =? 13)%nat.

Definition is_punct (c : ascii) : bool :=
  let n := nat_of_ascii c in
  (n =? 40)%nat || (n =? 41)%nat || (n =? 44)%nat.

Definition is_letter (c : ascii) : bool :=
  let n := nat_of_ascii c in
  ((65 <=? n)%nat && (n <=? 90)%nat) || ((97 <=? n)%nat && (n <=? 122)%nat).

Definition upper (c : ascii) : ascii :=
  let n := nat_of_ascii c in
  if ((97 <=? n)%nat && (n <=? 122)%nat) then ascii_of_nat (n - 32) else c.

(** Lexing: blanks separate, parentheses and commas stand alone, any other
    run of characters is one piece of text. *)
Inductive chunk :=
| Sep
| Punct (c : ascii)
| Text (cs : list ascii).

Definition cons_char (c : ascii) (acc : list chunk) : list chunk :=
  match acc with
  | Text t :: rest => Text (c :: t) :: rest
  | _ => Text [c] :: acc
  end.

Fixpoint lex (cs : list ascii) : list chunk :=
  match cs with
  | [] => []
  | c :: cs' =>
      if is_space c then Sep :: lex cs'
      else if is_punct c then Punct c :: lex cs'
      else cons_char c (lex cs')
  end.

(** Numbers. *)
Definition digit (c : ascii) : option Z :=
  let n := Z.of_nat (nat_of_ascii c) - 48 in
  if (0 <=? n) && (n <=? 9) then Some n else None.

Fixpoint read_digits (cs : list ascii) (acc : Z) : option Z :=
  match cs with
  | [] => Some acc
  | c :: cs' =>
      match digit c with
      | Some d => read_digits cs' (10 * acc + d)
      | None => None
      end
  end.

Definition is_dot (c : ascii) : bool := (nat_of_ascii c =? 46)%nat.

(** The text before the first dot, and the text after it, if any. *)
Fixpoint split_dot (cs : list ascii) : list ascii * option (list ascii) :=
  match cs with
  | [] => ([], None)
  | c :: cs' =>
      if is_dot c then ([], Some cs')
      else let (i, f) := split_dot cs' in (c :: i, f)
  end.

(** Trailing zeros of the fraction carry no value. *)
Fixpoint normalize (m : Z) (k : nat) : float :=
  match k with
  | O => mkFloat m O
  | S k' => if m mod 10 =? 0 then normalize (m / 10) k' else mkFloat m k
  end.

Definition read_unsigned (cs : list ascii) : option float :=
  let (i, f) := split_dot cs in
  let fd := match f with Some fd => fd | None => [] end in
  match i ++ fd with
  | [] => None
  | ds => match read_digits ds 0 with
          | Some m => Some (normalize m (length fd))
          | None => None
          end
  end.

Definition negate (f : float) : float := mkFloat (- mant f) (frac f).

Definition read_number (cs : list ascii) : option float :=
  match cs with
  | c :: cs' =>
      if (nat_of_ascii c =? 45)%nat then option_map negate (read_unsigned cs')
      else if (nat_of_ascii c =? 43)%nat then read_unsigned cs'
      else read_unsigned cs
  | [] => None
  end.

Inductive token :=
| TWord (w : string)
| TNumber (f : float)
| TLParen
| TRParen
| TComma.

Definition token_of_text (cs : list ascii) : option token :=
  match cs with
  | c :: _ =>
      if is_letter c then Some (TWord (string_of_list_ascii (map upper cs)))
      else option_map TNumber (read_number cs)
  | [] => None
  end.

Fixpoint tokens (l : list chunk) : option (list token) :=
  match l with
  | [] => Some []
  | Sep :: l' => tokens l'
  | Punct c :: l' =>
      let t := if (nat_of_ascii c =? 40)%nat then TLParen
               else if (nat_of_ascii c =? 41)%nat then TRParen
               else TComma in
      option_map (cons t) (tokens l')
  | Text cs :: l' =>
      match token_of_text cs, tokens l' with
      | Some t, Some ts => Some (t :: ts)
      | _, _ => None
      end
  end.

(** [x y] followed by [, x y] any number of times, up to the closing
    parenthesis; what follows it is returned. *)
Fixpoint coord_seq (ts : list token) : option (list (float * float) * list token) :=
  match ts with
  | TNumber x :: TNumber y :: TRParen :: rest => Some ([(x, y)], rest)
  | TNumber x :: TNumber y :: TComma :: rest =>
      match coord_seq rest with
      | Some (ps, rest') => Some ((x, y) :: ps, rest')
      | None => None
      end
  | _ => None
  end.

Definition parse (ts : list token) : result shape :=
  match ts with
  | TWord w :: TLParen :: rest =>
      if String.eqb w "POINT" then
        match rest with
        | [TNumber x; TNumber y; TRParen] => Ok (Point x y)
        | _ => Raise GEOSException
        end
      else if String.eqb w "LINESTRING" then
        match coord_seq rest with
        | Some (ps, []) =>
            if (2 <=? length ps)%nat then Ok (LineString ps)
            else Raise GEOSException
        | _ => Raise GEOSException
        end
      else Raise GEOSException
  | _ => Raise GEOSException
  end.

Definition loads (s : string) : result shape :=
  match tokens (lex (list_ascii_of_string s)) with
  | Some ts => parse ts
  | None => Raise GEOSException
  end.

(** Writing. *)
Definition digit_char (d : Z) : ascii := ascii_of_nat (Z.to_nat (48 + d)).

(** The [k] low decimal digits of [n], most significant first. *)
Fixpoint digits_fixed (k : nat) (n : Z) : list ascii :=
  match k with
  | O => []
  | S k' => digits_fixed k' (n / 10) ++ [digit_char (n mod 10)]
  end.

Fixpoint strip_zeros (cs : list ascii) : list ascii :=
  match cs with
  | c :: (_ :: _) as cs' => if (nat_of_ascii c =? 48)%nat then strip_zeros cs' else cs
  | _ => cs
  end.

(** The decimal digits of [n >= 0], without leading zeros. *)
Definition digits (n : Z) : list ascii :=
  strip_zeros (digits_fixed (S (Z.to_nat (Z.log2 n))) n).

(** The fraction part the writer prints. *)
Definition written_fraction (a : Z) (k : nat) : list ascii :=
  match k with
  | O => []
  | S _ => "."%char :: digits_fixed k (a mod pow10 k)
  end.

Definition write_number (f : float) : list ascii :=
  let a := Z.abs (mant f) in
  (if mant f <? 0 then ["-"%char] else [])
  ++ digits (a / pow10 (frac f))
  ++ written_fraction a (frac f).

Definition write_coord (p : float * float) : list ascii :=
  write_number (fst p) ++ " "%char :: write_number (snd p).

Fixpoint write_coords (ps : list (float * float)) : list ascii :=
  match ps with
  | [] => []
  | [p] => write_coord p
  | p :: ps' => write_coord p ++ ","%char :: " "%char :: write_coords ps'
  end.

Definition write_shape (s : shape) : list ascii :=
  match s with
  | Point x y =>
      list_ascii_of_string "POINT (" ++ write_coord (x, y) ++ [")"%char]
  | LineString ps =>
      list_ascii_of_string "LINESTRING (" ++ write_coords ps ++ [")"%char]
  end.

Definition dumps (s : shape) : string := string_of_list_ascii (write_shape s).

End GEOS.

#[global] Instance geos : Shapely := {| wkt_loads := GEOS.loads; wkt := GEOS.dumps |}.

(** ** [settings.py] *)

(** Python's [str.lower], on the ASCII letters. *)
Definition ascii_lower (c : ascii) : ascii :=
  let n := nat_of_ascii c in
  if ((65 <=? n)%nat && (n <=? 90)%nat) then ascii_of_nat (n + 32) else c.

Fixpoint lower (s : string) : string :=
  match s with
  | EmptyString => EmptyString
  | String c s' => String (ascii_lower c) (lower s')
  end.

Module settings.

Record Settings := mkSettings {
  ENVIRONMENT : string;
  SPATIALITE_PATH : string;
  POSTGRES_USER : string;
  POSTGRES_PASSWORD : string;
  POSTGRES_HOST : string;
  POSTGRES_PORT : string;
  POSTGRES_DB : string }.

(** The defaults of the fields. *)
Definition defaults : Settings :=
  mkSettings "development" "./geo.db" "postgres" "postgres" "localhost"
             "5432" "postgres".

Definition is_development (self : Settings) : bool :=
  String.eqb (lower (ENVIRONMENT self)) "development".

Definition database_url (self : Settings) : string :=
  if is_development self then
    ("sqlite:///" ++ SPATIALITE_PATH self)%string
  else
    ("postgresql+psycopg2://" ++ POSTGRES_USER self ++ ":"
       ++ POSTGRES_PASSWORD self ++ "@" ++ POSTGRES_HOST self ++ ":"
       ++ POSTGRES_PORT self ++ "/" ++ POSTGRES_DB self)%string.

End settings.

(** ** [alembic/env.py]: the database URL *)

Module env.

(** [os.environ[key]] returns the value or raises [KeyError]. *)
Inductive outcome (A : Type) :=
| Value (a : A)
| KeyError (key : string).
Arguments Value {A} a.
Arguments KeyError {A} key.

Definition getitem (environ : gmap string string) (key : string) : outcome string :=
  match environ !! key with
  | Some v => Value v
  | None => KeyError key
  end.

(** [os.environ.get(key, default)]. *)
Definition get (environ : gmap string string) (key dflt : string) : string :=
  default dflt (environ !! key).

Definition environment (environ : gmap string string) : string :=
  lower (get environ "ENVIRONMENT" "development").

Definition is_development (environ : gmap string string) : bool :=
  String.eqb (environment environ) "development".

(** The fields of the f-string are evaluated from left to right. *)
Definition database_url (environ : gmap string string) : outcome string :=
  if is_development environ then
    let spatialite_path := get environ "SPATIALITE_PATH" "./geo.db" in
    Value ("sqlite:///" ++ spatialite_path)%string
  else
    match getitem environ "POSTGRES_USER" with
    | KeyError k => KeyError k
    | Value user =>
    match getitem environ "POSTGRES_PASSWORD" with
    | KeyError k => KeyError k
    | Value password =>
    match getitem environ "POSTGRES_PORT" with
    | KeyError k => KeyError k
    | Value port =>
    match getitem environ "POSTGRES_DB" with
    | KeyError k => KeyError k
    | Value db =>
        Value ("postgresql+psycopg2://" ++ user ++ ":" ++ password
                 ++ "@localhost:" ++ port ++ "/" ++ db)%string
    end end end end.

End env.

(** ** [db.py]: the engine and its connect hook

    A DBAPI connection of [sqlite3], as far as the hook uses it: whether
    extension loading is enabled, the extensions loaded, and the statements
    executed.  [load_extension] raises when loading is not enabled or the
    extension cannot be found; [InitSpatialMetaData] is a function of
    [mod_spatialite] and unknown without it.  An exception leaves the
    connection as it is at that point. *)

Module sqlite3.

Record Connection := mkConnection {
  load_extension_enabled : bool;
  extensions : list string;
  executed : list string }.

Inductive Error := OperationalError (msg : string).

Definition new_connection : Connection := mkConnection false [] [].

Definition enable_load_extension (enabled : bool) (c : Connection)
  : option Error * Connection :=
  (None, mkConnection enabled (extensions c) (executed c)).

Definition load_extension (installed : string -> bool) (name : string)
    (c : Connection) : option Error * Connection :=
  if load_extension_enabled c then
    if installed name then
      (None, mkConnection (load_extension_enabled c) (extensions c ++ [name])
                          (executed c))
    else (Some (OperationalError "the specified module could not be found"), c)
  else (Some (OperationalError "not authorized"), c).

Definition init_spatial_metadata : string := "SELECT InitSpatialMetaData(1);".

Definition execute (sql : string) (c : Connection) : option Error * Connection :=
  if String.eqb sql init_spatial_metadata
     && negb (existsb (String.eqb "mod_spatialite") (extensions c)) then
    (Some (OperationalError "no such function: InitSpatialMetaData"), c)
  else (None, mkConnection (load_extension_enabled c) (extensions c)
                           (executed c ++ [sql])).

(** One call after another; the first exception ends the sequence. *)
Definition andthen (f g : Connection -> option Error * Connection)
  : Connection -> option Error * Connection :=
  fun c => match f c with
           | (None, c') => g c'
           | (Some e, c') => (Some e, c')
           end.

End sqlite3.

Module db.
Import settings sqlite3.

Section Engine.
(** Which extension modules the host can load. *)
Variable installed : string -> bool.

(** The listener that [_create_engine] registers in development (and
    [run_migrations_online] of [alembic/env.py] likewise). *)
Definition load_spatialite (dbapi_conn : Connection) : option Error * Connection :=
  andthen (enable_load_extension true)
    (andthen (load_extension installed "mod_spatialite")
       (andthen (enable_load_extension false)
          (execute "SELECT InitSpatialMetaData(1);"))) dbapi_conn.

Record Engine := mkEngine {
  url : string;
  echo : bool;
  connect_listeners : list (Connection -> option Error * Connection) }.

Definition create_engine (url : string) (echo : bool) : Engine :=
  mkEngine url echo [].

(** [@event.listens_for(engine, "connect")]. *)
Definition listens_for_connect (engine : Engine)
    (fn : Connection -> option Error * Connection) : Engine :=
  mkEngine (url engine) (echo engine) (connect_listeners engine ++ [fn]).

Definition _create_engine (settings : Settings) : Engine :=
  let engine := create_engine (database_url settings) true in
  if is_development settings then listens_for_connect engine load_spatialite
  else engine.

(** A new DBAPI connection of the engine: the listeners run on it in the
    order they were registered. *)
Definition connect (engine : Engine) : option Error * Connection :=
  fold_left andthen (connect_listeners engine) (fun c => (None, c))
            new_connection.

End Engine.
End db.

(** ** [health.py] *)

(** [try: body except Exception: handler]. *)
Definition try_except {A} (body : M A) (handler : exn -> M A) : M A :=
  fun w => match body w with
           | (Ok a, w') => (Ok a, w')
           | (Raise e, w') => handler e w'
           end.

Definition health_ok : list (string * string) := [("status", "ok"); ("db", "up")].
Definition health_degraded : list (string * string) :=
  [("status", "degraded"); ("db", "down")].

(** [execute_text db sql] stands for [db.execute(text(sql))]: what the
    engine does with the probe is left open, it may answer or raise. *)
Definition healthcheck (execute_text : Session -> string -> M unit) (db : Session)
  : M (list (string * string)) :=
  try_except
    (execute_text db "SELECT 1" ;;; ret health_ok)
    (fun _ => ret health_degraded).

Definition GET_health (execute_text : Session -> string -> M unit)
  : M (list (string * string)) :=
  get_db (healthcheck execute_text).

(** * Vocabulary of the properties *)

(** A world with two stored points, no open session, and the clock at
    1000. *)
Definition example_world : World :=
  mkWorld
    (mkDatabase
       [mkRow 1 10 (mkGeometry (float_of_Z 1) (float_of_Z 1) 4326) (mkFloat 425 1);
        mkRow 2 20 (mkGeometry (float_of_Z 3) (float_of_Z 0) 4326) (mkFloat 5 0)]
       [])
    [] [] 1000 0 0.

(** A table whose physical order is not the order of the keys. *)
Definition unordered_world : World :=
  mkWorld
    (mkDatabase
       [mkRow 2 20 (mkGeometry (float_of_Z 3) (float_of_Z 0) 4326) (mkFloat 5 0);
        mkRow 1 10 (mkGeometry (float_of_Z 1) (float_of_Z 1) 4326) (mkFloat 425 1)]
       [])
    [] [] 1000 0 0.

Definition london : ExamplePointCreate :=
  mkCreate "POINT(51.51999 -0.10684)" (mkFloat 425 1).

Definition preserves {A} (P : World -> Prop) (m : M A) : Prop :=
  forall w, P w -> P (snd (m w)).

(** The session counters. *)
Definition sessions_are (o c : nat) (w : World) : Prop :=
  opened w = o /\ closed w = c.

(** [v] lies outside the closed interval from [lo] to [hi]. *)
Definition outside (lo hi : Z) (v : float) : Prop :=
  float_lt v (float_of_Z lo) = true \/ float_gt v (float_of_Z hi) = true.

(** Object [o] is the stored record [r]: its key, its timestamp, its
    point with its SRID, and its value. *)
Definition object_of_row (o : ExamplePoint) (r : Row) : Prop :=
  id o = Some (row_id r)
  /\ created_at o = Some (row_created_at r)
  /\ geom o = mkWKBElement (Point (g_x (row_geom r)) (g_y (row_geom r)))
                           (g_srid (row_geom r))
  /\ value o = row_value r.

(** The point of row [r] lies in the closed rectangle: on or inside the
    boundary. *)
Definition in_closed_box (min_lat max_lat min_lon max_lon : float) (r : Row) : bool :=
  float_le min_lon (g_x (row_geom r)) && float_le (g_x (row_geom r)) max_lon
  && float_le min_lat (g_y (row_geom r)) && float_le (g_y (row_geom r)) max_lat.

(** The row that [create_example_point] writes for a point. *)
Definition created_row (w : World) (x y : float) (v : float) : Row :=
  mkRow (id_default (table (database w))) (created_at_default (clock w))
        (mkGeometry x y 4326) v.

(** The statements it sends when the insert succeeds. *)
Definition created_statements (w : World) (x y : float) (v : float) : list Statement :=
  [INSERT (mkExamplePoint None None (from_shape (Point x y) 4326) v);
   SELECT (where_ (id_is (id_default (table (database w)))) select_ExamplePoint)].

(** The record served for a row. *)
Definition model_of_row `{Shapely} (r : Row) : ExamplePointModel :=
  mkModel (row_id r) (Some (row_created_at r))
          (wkt (Point (g_x (row_geom r)) (g_y (row_geom r)))) (row_value r).

Definition srid_invariant (w : World) : Prop :=
  Forall (fun r => g_srid (row_geom r) = 4326) (table (database w)).

(** Every INSERT among the statements carries SRID 4326. *)
Definition inserts_4326 (ss : list Statement) : Prop :=
  Forall (fun s => match s with
                   | INSERT o => srid (geom o) = 4326
                   | SELECT _ => True
                   end) ss.

(** A table with a point stored outside the degree ranges. *)
Definition far_row : Row :=
  mkRow 7 70 (mkGeometry (float_of_Z 200) (float_of_Z 10) 4326) (mkFloat 1 0).

Definition far_world : World :=
  mkWorld (mkDatabase [far_row] []) [] [] 1000 0 0.

(** The record served for the point of [london] created in
    [example_world]. *)
Definition london_record : ExamplePointModel :=
  mkModel 3 (Some 1000) "POINT (51.51999 -0.10684)" (mkFloat 425 1).

(** A production environment and settings that hold its values. *)
Definition production_environ : gmap string string :=
  <["ENVIRONMENT" := "Production"]>
    (<["POSTGRES_USER" := "geo"]>
       (<["POSTGRES_PASSWORD" := "secret"]>
          (<["POSTGRES_PORT" := "5433"]>
             (<["POSTGRES_DB" := "points"]> ∅)))).

Definition production_settings : settings.Settings :=
  settings.mkSettings "Production" "./geo.db" "geo" "secret" "db.internal"
                      "5433" "points".

(** A probe that finds the database down. *)
Definition probe_down (db : Session) (sql : string) : M unit :=
  raise (SQLAlchemyError "connection refused").

(** * Properties *)

(** ** Comparisons of floats *)

Lemma pow10_pos (k : nat) : 0 < pow10 k.
Proof. unfold pow10. apply Z.pow_pos_nonneg; lia. Qed.

Lemma float_gt_not_le (a b : float) : float_gt a b = negb (float_le a b).
Proof. unfold float_gt, float_lt, float_le. apply Z.ltb_antisym. Qed.

Lemma float_lt_not_ge (a b : float) : float_lt a b = negb (float_ge a b).
Proof. unfold float_ge, float_lt, float_le. apply Z.ltb_antisym. Qed.

Lemma float_le_refl (a : float) : float_le a a = true.
Proof. unfold float_le. apply Z.leb_refl. Qed.

Lemma float_eqb_le (a b : float) :
  float_eqb a b = true -> float_le a b = true /\ float_le b a = true.
Proof.
  unfold float_eqb, float_le. intros E%Z.eqb_eq.
  rewrite E. split; apply Z.leb_refl.
Qed.

Lemma float_min_le (a b : float) : float_le a b = true -> float_min a b = a.
Proof. unfold float_min. now intros ->. Qed.

Lemma float_max_le (a b : float) : float_le a b = true -> float_max a b = b.
Proof. unfold float_max. now intros ->. Qed.

(** ** Invalid bounds *)

(** C5: when [min_lat > max_lat] or [min_lon > max_lon],
    [read_points_in_bbox] raises the 422 [HTTPException] of the bounds
    check and leaves the world as it was: no statement is sent to the
    engine and the table is untouched. *)
Theorem read_points_in_bbox_invalid_bounds
    (min_lat max_lat min_lon max_lon : float) (db : Session) (w : World) :
  float_gt min_lat max_lat = true \/ float_gt min_lon max_lon = true ->
  exists detail,
    read_points_in_bbox min_lat max_lat min_lon max_lon db w
      = (Raise (HTTPException 422 detail), w)
    /\ (detail = "min_lat must be <= max_lat"
        \/ detail = "min_lon must be <= max_lon").
Proof.
  intros Hb. unfold read_points_in_bbox.
  destruct (float_gt min_lat max_lat) eqn:Hlat.
  - eexists; split; [reflexivity | now left].
  - destruct Hb as [Hb | Hb]; [discriminate |].
    rewrite Hb. eexists; split; [reflexivity | now right].
Qed.

Lemma read_points_in_bbox_invalid_bounds_witness :
  float_gt (float_of_Z 5) (float_of_Z (-5)) = true
  /\ exists detail,
       read_points_in_bbox (float_of_Z 5) (float_of_Z (-5))
         (float_of_Z 0) (float_of_Z 1) 0%nat example_world
         = (Raise (HTTPException 422 detail), example_world)
       /\ (detail = "min_lat must be <= max_lat"
           \/ detail = "min_lon must be <= max_lon").
Proof.
  split; [reflexivity |].
  apply (read_points_in_bbox_invalid_bounds
           (float_of_Z 5) (float_of_Z (-5)) (float_of_Z 0) (float_of_Z 1)
           0%nat example_world).
  left. reflexivity.
Defined.

(** ** What a computation preserves *)

Lemma preserves_ret {A} P (a : A) : preserves P (ret a).
Proof. now intros w Hw. Qed.

Lemma preserves_raise {A} P e : preserves P (@raise A e).
Proof. now intros w Hw. Qed.

Lemma preserves_lift {A} P (r : result A) : preserves P (lift r).
Proof. now intros w Hw. Qed.

Lemma preserves_bind {A B} P (m : M A) (k : A -> M B) :
  preserves P m -> (forall a, preserves P (k a)) -> preserves P (bind m k).
Proof.
  intros Hm Hk w Hw. unfold bind.
  specialize (Hm w Hw). destruct (m w) as [[a | e] w']; simpl in *.
  - now apply Hk.
  - exact Hm.
Qed.

Lemma preserves_try_finally {A} P (body : M A) (fin : M unit) :
  preserves P body -> preserves P fin -> preserves P (try_finally body fin).
Proof.
  intros Hb Hf w Hw. unfold try_finally.
  specialize (Hb w Hw). destruct (body w) as [r w']; simpl in *.
  specialize (Hf w' Hb). now destruct (fin w') as [[u | e] w''].
Qed.

Lemma insert_sessions o w :
  opened (snd (insert o w)) = opened w /\ closed (snd (insert o w)) = closed w.
Proof. unfold insert. now destruct (geom_bind (geom o)). Qed.

Lemma flush_sessions hs : forall w,
  opened (snd (flush hs w)) = opened w /\ closed (snd (flush hs w)) = closed w.
Proof.
  induction hs as [| h hs IH]; intros w; simpl; [easy |].
  destruct (heap w !! h) as [o |]; [| apply IH].
  pose proof (insert_sessions o w) as [Ho Hc].
  destruct (insert o w) as [[r | e] w']; simpl in *; [| easy].
  rewrite <- Ho, <- Hc. apply (IH (set_heap _ w')).
Qed.

Lemma commit_sessions o c db : preserves (sessions_are o c) (commit db).
Proof.
  intros w [Ho Hc]. unfold commit, sessions_are.
  pose proof (flush_sessions (pending w) w) as [Ho' Hc'].
  destruct (flush (pending w) w) as [[u | e] w']; simpl in *; split; congruence.
Qed.

Lemma refresh_sessions o c db h : preserves (sessions_are o c) (refresh db h).
Proof.
  intros w Hw. unfold refresh.
  destruct (heap w !! h) as [ob |]; [| exact Hw].
  destruct (id ob) as [i |]; [| exact Hw].
  now destruct (run_select _ _).
Qed.

Lemma deref_sessions o c h : preserves (sessions_are o c) (deref h).
Proof. intros w Hw. unfold deref. now destruct (heap w !! h). Qed.

Lemma execute_sessions o c db q : preserves (sessions_are o c) (execute_scalars_all db q).
Proof. now intros w Hw. Qed.

Section Sessions.
Context `{Shapely}.

Lemma create_example_point_sessions o c db data :
  preserves (sessions_are o c) (create_example_point db data).
Proof.
  unfold create_example_point.
  apply preserves_bind; [apply preserves_lift | intros shp].
  apply preserves_bind; [now intros w Hw | intros h].
  apply preserves_bind; [now intros w Hw | intros _].
  apply preserves_bind; [apply commit_sessions | intros _].
  apply preserves_bind; [apply refresh_sessions | intros _].
  apply deref_sessions.
Qed.

Lemma read_points_in_bbox_sessions o c a b x y db :
  preserves (sessions_are o c) (read_points_in_bbox a b x y db).
Proof.
  unfold read_points_in_bbox.
  destruct (float_gt a b); [apply preserves_raise |].
  destruct (float_gt x y); [apply preserves_raise |].
  apply execute_sessions.
Qed.

(** Whatever the endpoint does with the session, [get_db] has created one
    session and closed one when it returns or raises. *)
Lemma get_db_scoped {A} (endpoint : Session -> M A) (w : World) :
  (forall o c db, preserves (sessions_are o c) (endpoint db)) ->
  opened (snd (get_db endpoint w)) = S (opened w)
  /\ closed (snd (get_db endpoint w)) = S (closed w).
Proof.
  intros He. unfold get_db, bind, SessionLocal, try_finally.
  set (w1 := mkWorld _ _ _ _ _ _).
  destruct (He (S (opened w)) (closed w) (opened w) w1) as [Ho Hc];
    [now split |].
  destruct (endpoint (opened w) w1) as [r w2]; simpl in *.
  now rewrite Ho, Hc.
Qed.

(** C8: each of the three operations, as served, creates exactly one
    session and closes one, whether it returns or raises. *)
Theorem session_acquired_and_released (w : World) :
  (forall payload,
      opened (snd (POST_points payload w)) = S (opened w)
      /\ closed (snd (POST_points payload w)) = S (closed w))
  /\ (opened (snd (GET_points w)) = S (opened w)
      /\ closed (snd (GET_points w)) = S (closed w))
  /\ (forall min_lat max_lat min_lon max_lon,
      opened (snd (GET_points_bbox min_lat max_lat min_lon max_lon w)) = S (opened w)
      /\ closed (snd (GET_points_bbox min_lat max_lat min_lon max_lon w)) = S (closed w)).
Proof.
  split; [| split]; intros; apply get_db_scoped; intros o c db.
  - apply preserves_bind; [apply create_example_point_sessions |].
    intros; apply preserves_lift.
  - apply preserves_bind; [apply execute_sessions |].
    intros; apply preserves_lift.
  - destruct (bbox_query_errors _ _ _ _); [| apply preserves_raise].
    apply preserves_bind; [apply read_points_in_bbox_sessions |].
    intros; apply preserves_lift.
Qed.

End Sessions.

(** ** Rejections that never reach the engine *)

Lemma Query_outside name lo hi v :
  outside lo hi v -> Query name (float_of_Z lo) (float_of_Z hi) v = [name].
Proof.
  unfold outside, Query. rewrite float_lt_not_ge, float_gt_not_le.
  intros [Hv | Hv]; apply negb_true_iff in Hv; rewrite Hv; [easy |].
  now rewrite andb_false_r.
Qed.

Lemma Query_cases name ge le v :
  Query name ge le v = [] \/ Query name ge le v = [name].
Proof. unfold Query. destruct (_ && _); auto. Qed.

Lemma bbox_query_errors_outside min_lat max_lat min_lon max_lon :
  outside (-90) 90 min_lat \/ outside (-90) 90 max_lat
  \/ outside (-180) 180 min_lon \/ outside (-180) 180 max_lon ->
  bbox_query_errors min_lat max_lat min_lon max_lon <> [].
Proof.
  unfold bbox_query_errors.
  intros [Ho | [Ho | [Ho | Ho]]]; rewrite (Query_outside _ _ _ _ Ho);
    repeat match goal with
           | |- context [Query ?n ?g ?l ?v] =>
               destruct (Query_cases n g l v) as [-> | ->]
           end; discriminate.
Qed.

Section Rejections.
Context `{Shapely}.

(** C9: a bound outside its degree range makes the bounding-box endpoint
    fail request validation; the function of the route does not run, no
    statement is sent to the engine and the table is as before. *)
Theorem GET_points_bbox_out_of_range
    (min_lat max_lat min_lon max_lon : float) (w : World) :
  outside (-90) 90 min_lat \/ outside (-90) 90 max_lat
  \/ outside (-180) 180 min_lon \/ outside (-180) 180 max_lon ->
  (exists loc,
      fst (GET_points_bbox min_lat max_lat min_lon max_lon w)
        = Raise (RequestValidationError loc))
  /\ database (snd (GET_points_bbox min_lat max_lat min_lon max_lon w))
       = database w.
Proof.
  intros Ho. apply bbox_query_errors_outside in Ho.
  unfold GET_points_bbox, get_db, bind, SessionLocal, try_finally.
  destruct (bbox_query_errors min_lat max_lat min_lon max_lon) as [| e es];
    [congruence |].
  simpl. split; [eexists |]; reflexivity.
Qed.

Lemma create_example_point_raise db data w e :
  wkt_loads (c_geom data) = Raise e ->
  create_example_point db data w = (Raise e, w).
Proof.
  intros Hp. unfold create_example_point, bind, lift. now rewrite Hp.
Qed.

Lemma POST_points_raise data w e :
  wkt_loads (c_geom data) = Raise e ->
  fst (POST_points data w) = Raise e
  /\ database (snd (POST_points data w)) = database w.
Proof.
  intros Hp.
  unfold POST_points, get_db, create_point, bind, SessionLocal, try_finally.
  rewrite (create_example_point_raise _ _ _ _ Hp). now split.
Qed.


(** C10: when the text does not parse, [create_example_point] raises the
    reader's error and the world is exactly as before: nothing was added,
    no statement was sent.  Served through the router, the request fails
    with the same error and the database is unchanged. *)
Theorem create_example_point_parse_failure
    (db : Session) (data : ExamplePointCreate) (w : World) (e : exn) :
  wkt_loads (c_geom data) = Raise e ->
  create_example_point db data w = (Raise e, w)
  /\ fst (POST_points data w) = Raise e
  /\ database (snd (POST_points data w)) = database w.
Proof.
  intros Hp. split.
  - now apply create_example_point_raise.
  - now apply POST_points_raise.
Qed.

End Rejections.

Lemma GET_points_bbox_out_of_range_witness :
  outside (-90) 90 (float_of_Z 95)
  /\ (exists loc,
        fst (GET_points_bbox (float_of_Z 95) (float_of_Z 96)
               (float_of_Z 0) (float_of_Z 1) example_world)
          = Raise (RequestValidationError loc))
  /\ database (snd (GET_points_bbox (float_of_Z 95) (float_of_Z 96)
                     (float_of_Z 0) (float_of_Z 1) example_world))
       = database example_world.
Proof.
  assert (Ho : outside (-90) 90 (float_of_Z 95)) by (right; reflexivity).
  split; [exact Ho |].
  apply (GET_points_bbox_out_of_range
           (float_of_Z 95) (float_of_Z 96) (float_of_Z 0) (float_of_Z 1)
           example_world).
  left. exact Ho.
Defined.

Lemma create_example_point_parse_failure_witness :
  wkt_loads "POINT(51.5; -0.1)" = Raise GEOSException
  /\ create_example_point 0%nat (mkCreate "POINT(51.5; -0.1)" (mkFloat 425 1))
       example_world = (Raise GEOSException, example_world)
  /\ fst (POST_points (mkCreate "POINT(51.5; -0.1)" (mkFloat 425 1)) example_world)
       = Raise GEOSException
  /\ database (snd (POST_points (mkCreate "POINT(51.5; -0.1)" (mkFloat 425 1))
                      example_world))
       = database example_world.
Proof.
  split; [reflexivity |].
  apply (create_example_point_parse_failure 0%nat
           (mkCreate "POINT(51.5; -0.1)" (mkFloat 425 1)) example_world
           GEOSException).
  reflexivity.
Defined.

(** ** The bounding-box query *)

#[global] Instance row_id_le_trans : Transitive row_id_le.
Proof. intros x y z. unfold row_id_le. lia. Qed.

#[global] Instance row_id_le_total : Total row_id_le.
Proof. intros x y. unfold row_id_le. lia. Qed.

Lemma intersects_envelope_closed_box min_lat max_lat min_lon max_lon r :
  float_le min_lat max_lat = true ->
  float_le min_lon max_lon = true ->
  eval_criterion
    (intersects_geom (ST_MakeEnvelope min_lon min_lat max_lon max_lat 4326)) r
  = in_closed_box min_lat max_lat min_lon max_lon r.
Proof.
  intros Hlat Hlon. unfold eval_criterion, ST_Intersects, in_closed_box. simpl.
  now rewrite !float_min_le, !float_max_le.
Qed.

Lemma corner_in_closed_box r :
  float_eqb (g_x (row_geom r)) (float_of_Z 1) = true ->
  float_eqb (g_y (row_geom r)) (float_of_Z 1) = true ->
  in_closed_box (float_of_Z (-1)) (float_of_Z 1)
                (float_of_Z (-1)) (float_of_Z 1) r = true.
Proof.
  intros Hx Hy. unfold in_closed_box.
  destruct (float_eqb_le _ _ Hx) as [Hx1 Hx2].
  destruct (float_eqb_le _ _ Hy) as [Hy1 Hy2].
  rewrite Hx1, Hy1, !andb_true_r.
  unfold float_eqb, float_le, float_of_Z in *; simpl in *.
  apply Z.eqb_eq in Hx, Hy.
  pose proof (pow10_pos (frac (g_x (row_geom r)))).
  pose proof (pow10_pos (frac (g_y (row_geom r)))).
  unfold pow10 in *. simpl in *.
  apply andb_true_iff; split; apply Z.leb_le; lia.
Qed.

Lemma load_object_of_row (rows : list Row) :
  Forall2 object_of_row (map load rows) rows.
Proof.
  induction rows as [| r rows IH]; constructor; [| exact IH].
  repeat split.
Qed.

(** C4: for bounds with [min <= max] on both axes the route hands the
    query to [get_example_points_in_bbox], which returns the stored records
    whose point lies in the closed rectangle, each exactly once and each
    with its key, timestamp, point and value, by ascending [id], and leaves
    the table as it was; with the bounds -1, 1, -1, 1 a stored point at the
    corner (1, 1) is among them. *)
Theorem get_example_points_in_bbox_intersects (db : Session) (w : World) :
  (forall min_lat max_lat min_lon max_lon,
      float_le min_lat max_lat = true ->
      float_le min_lon max_lon = true ->
      read_points_in_bbox min_lat max_lat min_lon max_lon db w
        = get_example_points_in_bbox db min_lat max_lat min_lon max_lon w
      /\ exists os rows,
        fst (get_example_points_in_bbox db min_lat max_lat min_lon max_lon w)
          = Ok os
        /\ Forall2 object_of_row os rows
        /\ StronglySorted row_id_le rows
        /\ Permutation rows
             (List.filter (in_closed_box min_lat max_lat min_lon max_lon)
                          (table (database w)))
        /\ table (database
                    (snd (get_example_points_in_bbox db min_lat max_lat
                            min_lon max_lon w)))
           = table (database w))
  /\ (forall r,
        In r (table (database w)) ->
        float_eqb (g_x (row_geom r)) (float_of_Z 1) = true ->
        float_eqb (g_y (row_geom r)) (float_of_Z 1) = true ->
        exists os o,
          fst (get_example_points_in_bbox db (float_of_Z (-1)) (float_of_Z 1)
                 (float_of_Z (-1)) (float_of_Z 1) w) = Ok os
          /\ In o os
          /\ object_of_row o r).
Proof.
  assert (Hmain : forall min_lat max_lat min_lon max_lon,
      float_le min_lat max_lat = true ->
      float_le min_lon max_lon = true ->
      exists rows,
        fst (get_example_points_in_bbox db min_lat max_lat min_lon max_lon w)
          = Ok (map load rows)
        /\ StronglySorted row_id_le rows
        /\ Permutation rows
             (List.filter (in_closed_box min_lat max_lat min_lon max_lon)
                          (table (database w)))
        /\ table (database
                    (snd (get_example_points_in_bbox db min_lat max_lat
                            min_lon max_lon w)))
           = table (database w)).
  { intros min_lat max_lat min_lon max_lon Hlat Hlon.
    unfold get_example_points_in_bbox, execute_scalars_all, run_select. simpl.
    rewrite (List.filter_ext _ _
               (fun r => intersects_envelope_closed_box _ _ _ _ r Hlat Hlon)).
    eexists. split; [reflexivity |]. split; [| split; [| reflexivity]].
    - apply StronglySorted_merge_sort; apply _.
    - apply merge_sort_Permutation. }
  split.
  - intros min_lat max_lat min_lon max_lon Hlat Hlon. split.
    { unfold read_points_in_bbox. now rewrite !float_gt_not_le, Hlat, Hlon. }
    destruct (Hmain min_lat max_lat min_lon max_lon Hlat Hlon)
      as (rows & Hres & Hsorted & Hperm & Htable).
    exists (map load rows), rows.
    split; [exact Hres |]. split; [apply load_object_of_row |]. auto.
  - intros r Hr Hx Hy.
    destruct (Hmain (float_of_Z (-1)) (float_of_Z 1) (float_of_Z (-1)) (float_of_Z 1))
      as (rows & Hres & _ & Hperm & _); [reflexivity | reflexivity |].
    exists (map load rows), (load r). split; [exact Hres |]. split.
    + apply in_map. apply (Permutation_in r (Permutation_sym Hperm)).
      apply filter_In. split; [exact Hr |]. now apply corner_in_closed_box.
    + repeat split.
Qed.

Lemma get_example_points_in_bbox_intersects_witness :
  float_le (float_of_Z (-1)) (float_of_Z 1) = true
  /\ read_points_in_bbox (float_of_Z (-1)) (float_of_Z 1)
       (float_of_Z (-1)) (float_of_Z 1) 0%nat example_world
     = get_example_points_in_bbox 0%nat (float_of_Z (-1)) (float_of_Z 1)
         (float_of_Z (-1)) (float_of_Z 1) example_world
  /\ exists os rows,
       fst (get_example_points_in_bbox 0%nat (float_of_Z (-1)) (float_of_Z 1)
              (float_of_Z (-1)) (float_of_Z 1) example_world)
         = Ok os
       /\ Forall2 object_of_row os rows
       /\ StronglySorted row_id_le rows
       /\ Permutation rows
            (List.filter
               (in_closed_box (float_of_Z (-1)) (float_of_Z 1)
                              (float_of_Z (-1)) (float_of_Z 1))
               (table (database example_world)))
       /\ table (database
                   (snd (get_example_points_in_bbox 0%nat (float_of_Z (-1))
                           (float_of_Z 1) (float_of_Z (-1)) (float_of_Z 1)
                           example_world)))
          = table (database example_world).
Proof.
  split; [reflexivity |].
  apply (proj1 (get_example_points_in_bbox_intersects 0%nat example_world));
    reflexivity.
Defined.

(** ** Creating a point *)

Lemma max_id_ge (t : list Row) (r : Row) : In r t -> row_id r <= max_id t.
Proof.
  induction t as [| r' t IH]; [easy |].
  destruct t as [| r'' t].
  - intros [-> | []]. cbn. lia.
  - intros [-> | Hr].
    + change (max_id (r :: r'' :: t)) with (Z.max (row_id r) (max_id (r'' :: t))).
      lia.
    + specialize (IH Hr).
      change (max_id (r' :: r'' :: t)) with (Z.max (row_id r') (max_id (r'' :: t))).
      lia.
Qed.

Lemma filter_id_above (i : Z) (t : list Row) :
  (forall r, In r t -> row_id r < i) ->
  List.filter (eval_criterion (id_is i)) t = [].
Proof.
  induction t as [| r t IH]; intros Hall; [reflexivity |].
  cbn [List.filter eval_criterion].
  assert (row_id r < i) by (apply Hall; now left).
  destruct (Z.eqb_spec (row_id r) i); [lia |].
  apply IH. intros r' Hr'. apply Hall. now right.
Qed.

(** The generated key is not the key of any row of the table. *)
Lemma id_default_fresh (t : list Row) :
  List.filter (eval_criterion (id_is (id_default t))) t = [].
Proof.
  apply filter_id_above. intros r Hr%max_id_ge. unfold id_default. lia.
Qed.

Lemma id_default_lookup (t : list Row) (r : Row) :
  row_id r = id_default t ->
  run_select (where_ (id_is (id_default t)) select_ExamplePoint) (t ++ [r]) = [r].
Proof.
  intros Hr. unfold run_select. simpl.
  rewrite List.filter_app. fold (eval_criterion (id_is (id_default t))).
  rewrite id_default_fresh. simpl. rewrite Hr, Z.eqb_refl. reflexivity.
Qed.

(** Projections and updates of the world, and the steps of [flush]. *)
Ltac wsimpl :=
  cbn [database heap pending clock opened closed table statements
       set_database set_heap set_pending log_statement set_table
       geom geom_bind from_shape to_shape data srid id created_at value
       row_id row_created_at row_geom row_value
       app flush fst snd].

Section Create.
Context `{Shapely}.

Lemma create_example_point_point db text v w x y :
  wkt_loads text = Ok (Point x y) ->
  pending w = [] ->
  fst (create_example_point db (mkCreate text v) w) = Ok (load (created_row w x y v))
  /\ database (snd (create_example_point db (mkCreate text v) w))
     = mkDatabase (table (database w) ++ [created_row w x y v])
                  (statements (database w) ++ created_statements w x y v).
Proof.
  intros Hp Hpend.
  destruct w as [[t st] hp pd ck o c]. cbn in Hpend. subst pd.
  unfold create_example_point, bind, lift. cbn [c_geom c_value]. rewrite Hp.
  unfold new_ExamplePoint, add, commit. wsimpl.
  rewrite list_lookup_middle by reflexivity.
  unfold insert, created_row, created_statements. wsimpl.
  change (4326 =? column_srid) with true. wsimpl.
  unfold refresh. wsimpl.
  rewrite list_lookup_insert_eq by (rewrite length_app; simpl; lia).
  wsimpl. rewrite id_default_lookup by reflexivity.
  unfold deref. wsimpl.
  rewrite list_lookup_insert_eq
    by (rewrite length_insert, length_app; simpl; lia).
  wsimpl. split; [reflexivity |].
  unfold log_statement, set_table. wsimpl. now rewrite <- app_assoc.
Qed.

Lemma create_example_point_rejected db text v w shp e :
  wkt_loads text = Ok shp ->
  geom_bind (from_shape shp 4326) = Raise e ->
  pending w = [] ->
  fst (create_example_point db (mkCreate text v) w) = Raise e
  /\ database (snd (create_example_point db (mkCreate text v) w))
     = mkDatabase (table (database w))
         (statements (database w)
          ++ [INSERT (mkExamplePoint None None (from_shape shp 4326) v)]).
Proof.
  intros Hp Hg Hpend.
  destruct w as [[t st] hp pd ck o c]. cbn in Hpend. subst pd.
  unfold create_example_point, bind, lift. cbn [c_geom c_value]. rewrite Hp.
  unfold new_ExamplePoint, add, commit. wsimpl.
  rewrite list_lookup_middle by reflexivity.
  unfold insert. cbn [geom]. rewrite Hg. wsimpl.
  split; reflexivity.
Qed.

(** A request to [POST /points]: the function of the route runs in a new
    session, and closing the session leaves the database alone. *)
Lemma POST_points_eq payload w :
  let w1 := mkWorld (database w) (heap w) [] (clock w) (S (opened w)) (closed w) in
  fst (POST_points payload w)
  = match fst (create_example_point (opened w) payload w1) with
    | Ok o => model_validate o
    | Raise e => Raise e
    end
  /\ database (snd (POST_points payload w))
     = database (snd (create_example_point (opened w) payload w1)).
Proof.
  unfold POST_points, get_db, create_point, bind, SessionLocal, try_finally, lift.
  cbn zeta.
  destruct (create_example_point _ _ _) as [[o | e] w2]; [| now split].
  cbn [fst snd close]. now destruct (model_validate o).
Qed.

Lemma POST_points_point text v w x y :
  wkt_loads text = Ok (Point x y) ->
  fst (POST_points (mkCreate text v) w)
    = Ok (mkModel (id_default (table (database w))) (Some (clock w))
                  (wkt (Point x y)) v)
  /\ database (snd (POST_points (mkCreate text v) w))
     = mkDatabase (table (database w) ++ [created_row w x y v])
                  (statements (database w) ++ created_statements w x y v).
Proof.
  intros Hp.
  destruct (POST_points_eq (mkCreate text v) w) as [Hres Hdb].
  cbn zeta in Hres, Hdb.
  destruct (create_example_point_point (opened w) text v
              (mkWorld (database w) (heap w) [] (clock w) (S (opened w)) (closed w))
              x y Hp eq_refl) as [Hc Hd].
  rewrite Hres, Hdb, Hc, Hd. split; reflexivity.
Qed.

Lemma POST_points_rejected text v w shp e :
  wkt_loads text = Ok shp ->
  geom_bind (from_shape shp 4326) = Raise e ->
  fst (POST_points (mkCreate text v) w) = Raise e
  /\ database (snd (POST_points (mkCreate text v) w))
     = mkDatabase (table (database w))
         (statements (database w)
          ++ [INSERT (mkExamplePoint None None (from_shape shp 4326) v)]).
Proof.
  intros Hp Hg.
  destruct (POST_points_eq (mkCreate text v) w) as [Hres Hdb].
  cbn zeta in Hres, Hdb.
  destruct (create_example_point_rejected (opened w) text v
              (mkWorld (database w) (heap w) [] (clock w) (S (opened w)) (closed w))
              shp e Hp Hg eq_refl) as [Hc Hd].
  now rewrite Hres, Hdb, Hc, Hd.
Qed.



End Create.

(** ** Reading all points *)

Section Reads.
Context `{Shapely}.

Lemma model_validate_list_load (rows : list Row) :
  model_validate_list (map load rows) = Ok (map model_of_row rows).
Proof.
  induction rows as [| r rows IH]; [reflexivity |].
  cbn [map model_validate_list]. rewrite IH. reflexivity.
Qed.

(** [GET /points] serves one record per row, each geometry as text, in the
    order of the rows in the table; it sends one SELECT and changes no
    row.  On an empty table the answer is the empty list. *)
Lemma GET_points_all (w : World) :
  fst (GET_points w) = Ok (map model_of_row (table (database w)))
  /\ database (snd (GET_points w))
     = log_statement (SELECT select_ExamplePoint) (database w).
Proof.
  unfold GET_points, get_db, read_points, get_all_example_points,
    execute_scalars_all, bind, SessionLocal, try_finally, lift, run_select.
  wsimpl. cbn [whereclause order_by_id select_ExamplePoint].
  rewrite model_validate_list_load. now split.
Qed.

Lemma GET_points_bbox_table min_lat max_lat min_lon max_lon (w : World) :
  table (database (snd (GET_points_bbox min_lat max_lat min_lon max_lon w)))
  = table (database w).
Proof.
  unfold GET_points_bbox, get_db, read_points_in_bbox, get_example_points_in_bbox,
    execute_scalars_all, bind, SessionLocal, try_finally, lift, raise.
  destruct (bbox_query_errors _ _ _ _); [| reflexivity].
  destruct (float_gt min_lat max_lat); [reflexivity |].
  destruct (float_gt min_lon max_lon); [reflexivity |].
  wsimpl. now destruct (model_validate_list _).
Qed.

(** ** The spatial reference system *)

Lemma geom_bind_srid (e : WKBElement) (g : Geometry) :
  geom_bind e = Ok g -> g_srid g = 4326.
Proof.
  unfold geom_bind. destruct (data e); [| discriminate].
  destruct (Z.eqb_spec (srid e) column_srid) as [E |]; [| discriminate].
  intros [= <-]. exact E.
Qed.

(** C6: if every stored geometry carries SRID 4326 before a request, it
    does after it, for each of the three operations; the INSERT that a
    create sends carries SRID 4326 whatever the request says; and the
    column accepts no geometry with another SRID. *)
Theorem srid_4326_preserved (w : World) :
  srid_invariant w ->
  (forall payload,
      srid_invariant (snd (POST_points payload w))
      /\ exists new,
           statements (database (snd (POST_points payload w)))
             = statements (database w) ++ new
           /\ inserts_4326 new)
  /\ srid_invariant (snd (GET_points w))
  /\ (forall min_lat max_lat min_lon max_lon,
        srid_invariant (snd (GET_points_bbox min_lat max_lat min_lon max_lon w)))
  /\ (forall e g, geom_bind e = Ok g -> g_srid g = 4326).
Proof.
  intros Hinv. split; [| split; [| split]].
  - intros [text v]. unfold srid_invariant.
    destruct (wkt_loads text) as [shp | e] eqn:Hp.
    + destruct (geom_bind (from_shape shp 4326)) as [g | e] eqn:Hg.
      * destruct shp as [x y | ps]; [| discriminate].
        destruct (POST_points_point text v w x y Hp) as [_ Hdb].
        rewrite Hdb. cbn [table statements]. split.
        -- apply Forall_app. split; [exact Hinv |].
           now repeat constructor.
        -- eexists. split; [reflexivity |]. now repeat constructor.
      * destruct (POST_points_rejected text v w shp e Hp Hg) as [_ Hdb].
        rewrite Hdb. cbn [table statements]. split; [exact Hinv |].
        eexists. split; [reflexivity |]. now repeat constructor.
    + destruct (POST_points_raise (mkCreate text v) w e Hp) as [_ Hdb].
      rewrite Hdb. split; [exact Hinv |].
      exists []. split; [now rewrite app_nil_r | constructor].
  - unfold srid_invariant.
    now rewrite (proj2 (GET_points_all w)).
  - intros. unfold srid_invariant. now rewrite GET_points_bbox_table.
  - apply geom_bind_srid.
Qed.

End Reads.

(** ** Instances with the GEOS reader and writer *)





Lemma srid_4326_preserved_witness :
  srid_invariant example_world
  /\ (forall payload,
        srid_invariant (snd (POST_points payload example_world))
        /\ exists new,
             statements (database (snd (POST_points payload example_world)))
               = statements (database example_world) ++ new
             /\ inserts_4326 new)
  /\ srid_invariant (snd (GET_points example_world))
  /\ (forall min_lat max_lat min_lon max_lon,
        srid_invariant
          (snd (GET_points_bbox min_lat max_lat min_lon max_lon example_world)))
  /\ (forall e g, geom_bind e = Ok g -> g_srid g = 4326).
Proof.
  assert (Hinv : srid_invariant example_world) by (repeat constructor).
  split; [exact Hinv |].
  apply (srid_4326_preserved example_world Hinv).
Defined.

(** C7 on a table whose rows are not stored in key order: [GET /points]
    serves every row, each geometry as text, but in the order of the
    table, keys 2 then 1, where [GET /points/bbox] with bounds that contain
    both points serves them by ascending key; on an empty table it serves
    the empty list. *)
Theorem GET_points_not_ordered :
  fst (GET_points unordered_world)
    = Ok [mkModel 2 (Some 20) "POINT (3 0)" (mkFloat 5 0);
          mkModel 1 (Some 10) "POINT (1 1)" (mkFloat 425 1)]
  /\ fst (GET_points_bbox (float_of_Z (-5)) (float_of_Z 5)
            (float_of_Z (-5)) (float_of_Z 5) unordered_world)
     = Ok [mkModel 1 (Some 10) "POINT (1 1)" (mkFloat 425 1);
           mkModel 2 (Some 20) "POINT (3 0)" (mkFloat 5 0)]
  /\ fst (GET_points (mkWorld (mkDatabase [] []) [] [] 1000 0 0)) = Ok [].
Proof. repeat split. Qed.

(** * Further properties of the package *)

(** ** Order of floats *)

Lemma float_le_trans (a b c : float) :
  float_le a b = true -> float_le b c = true -> float_le a c = true.
Proof.
  unfold float_le. intros Hab%Z.leb_le Hbc%Z.leb_le. apply Z.leb_le.
  pose proof (pow10_pos (frac a)) as Ha.
  pose proof (pow10_pos (frac b)) as Hb.
  pose proof (pow10_pos (frac c)) as Hc.
  apply (Z.mul_le_mono_pos_r _ _ (pow10 (frac b))); [exact Hb |].
  apply Z.le_trans with (mant b * pow10 (frac a) * pow10 (frac c)).
  - replace (mant a * pow10 (frac c) * pow10 (frac b))
      with (mant a * pow10 (frac b) * pow10 (frac c)) by ring.
    apply Z.mul_le_mono_pos_r; assumption.
  - replace (mant b * pow10 (frac a) * pow10 (frac c))
      with (mant b * pow10 (frac c) * pow10 (frac a)) by ring.
    replace (mant c * pow10 (frac a) * pow10 (frac b))
      with (mant c * pow10 (frac b) * pow10 (frac a)) by ring.
    apply Z.mul_le_mono_pos_r; assumption.
Qed.

Lemma not_outside_iff (lo hi : Z) (v : float) :
  ~ outside lo hi v
  <-> float_le (float_of_Z lo) v = true /\ float_le v (float_of_Z hi) = true.
Proof.
  unfold outside. rewrite float_lt_not_ge, float_gt_not_le. unfold float_ge.
  destruct (float_le (float_of_Z lo) v), (float_le v (float_of_Z hi));
    simpl; intuition congruence.
Qed.

Lemma Query_nil_iff name lo hi v :
  Query name (float_of_Z lo) (float_of_Z hi) v = [] <-> ~ outside lo hi v.
Proof.
  rewrite not_outside_iff. unfold Query, float_ge.
  destruct (float_le (float_of_Z lo) v), (float_le v (float_of_Z hi));
    simpl; intuition congruence.
Qed.

Lemma bbox_query_errors_nil_iff min_lat max_lat min_lon max_lon :
  bbox_query_errors min_lat max_lat min_lon max_lon = []
  <-> ~ outside (-90) 90 min_lat /\ ~ outside (-90) 90 max_lat
      /\ ~ outside (-180) 180 min_lon /\ ~ outside (-180) 180 max_lon.
Proof.
  unfold bbox_query_errors. split.
  - intros E.
    apply app_eq_nil in E as [E1 E]. apply app_eq_nil in E as [E2 E].
    apply app_eq_nil in E as [E3 E4].
    apply Query_nil_iff in E1, E2, E3, E4. auto.
  - intros (E1 & E2 & E3 & E4).
    apply (Query_nil_iff "min_lat") in E1. apply (Query_nil_iff "max_lat") in E2.
    apply (Query_nil_iff "min_lon") in E3. apply (Query_nil_iff "max_lon") in E4.
    now rewrite E1, E2, E3, E4.
Qed.


Section Compositions.
Context `{Shapely}.

(** A request served by [GET /points/bbox] that passes both checks. *)
Lemma GET_points_bbox_ok min_lat max_lat min_lon max_lon w :
  bbox_query_errors min_lat max_lat min_lon max_lon = [] ->
  float_le min_lat max_lat = true ->
  float_le min_lon max_lon = true ->
  fst (GET_points_bbox min_lat max_lat min_lon max_lon w)
  = Ok (map model_of_row
          (merge_sort row_id_le
             (List.filter (in_closed_box min_lat max_lat min_lon max_lon)
                          (table (database w))))).
Proof.
  intros Hq Hlat Hlon.
  unfold GET_points_bbox, get_db, read_points_in_bbox,
    get_example_points_in_bbox, execute_scalars_all, bind, SessionLocal,
    try_finally, lift, run_select.
  rewrite Hq, !float_gt_not_le, Hlat, Hlon.
  cbn [negb whereclause order_by_id order_by_ExamplePoint_id where_
       select_ExamplePoint]. wsimpl.
  rewrite (List.filter_ext _ _
             (fun r => intersects_envelope_closed_box _ _ _ _ r Hlat Hlon)).
  rewrite model_validate_list_load. reflexivity.
Qed.

(** What a request to [POST /points] can do. *)
Lemma POST_points_cases text v w :
  (exists x y,
      wkt_loads text = Ok (Point x y)
      /\ fst (POST_points (mkCreate text v) w)
         = Ok (model_of_row (created_row w x y v))
      /\ table (database (snd (POST_points (mkCreate text v) w)))
         = table (database w) ++ [created_row w x y v])
  \/ (exists e,
      fst (POST_points (mkCreate text v) w) = Raise e
      /\ table (database (snd (POST_points (mkCreate text v) w)))
         = table (database w)).
Proof.
  destruct (wkt_loads text) as [[x y | ps] | e] eqn:Hp.
  - left. exists x, y.
    destruct (POST_points_point text v w x y Hp) as [Hres Hdb].
    rewrite Hres, Hdb. auto.
  - right. eexists.
    destruct (POST_points_rejected text v w (LineString ps) _ Hp eq_refl)
      as [Hres Hdb].
    rewrite Hres, Hdb. auto.
  - right. exists e.
    destruct (POST_points_raise (mkCreate text v) w e Hp) as [Hres Hdb].
    rewrite Hres, Hdb. auto.
Qed.

(** X1: a point created by [POST /points] is served by the next
    [GET /points], together with exactly the records served before. *)
Theorem GET_points_after_POST (text : string) (v : float) (w : World)
    (m : ExamplePointModel) :
  fst (POST_points (mkCreate text v) w) = Ok m ->
  exists ms ms',
    fst (GET_points w) = Ok ms
    /\ fst (GET_points (snd (POST_points (mkCreate text v) w))) = Ok ms'
    /\ Permutation ms' (ms ++ [m]).
Proof.
  intros Hm.
  destruct (POST_points_cases text v w) as [(x & y & _ & Hres & Ht) | (e & Hres & _)];
    [| congruence].
  rewrite Hres in Hm. injection Hm as <-.
  exists (map model_of_row (table (database w))),
         (map model_of_row (table (database w) ++ [created_row w x y v])).
  rewrite !(proj1 (GET_points_all _)), Ht, map_app.
  split; [reflexivity |]. split; reflexivity.
Qed.

(** X2: after a point has been created, a bounding-box request that passes
    validation serves what it served before and, exactly when the new point
    lies in the closed rectangle, the new record as well. *)
Theorem GET_points_bbox_after_POST (text : string) (v : float) (w : World)
    (m : ExamplePointModel) (min_lat max_lat min_lon max_lon : float) :
  fst (POST_points (mkCreate text v) w) = Ok m ->
  bbox_query_errors min_lat max_lat min_lon max_lon = [] ->
  float_le min_lat max_lat = true ->
  float_le min_lon max_lon = true ->
  exists ms ms' r,
    fst (GET_points_bbox min_lat max_lat min_lon max_lon w) = Ok ms
    /\ fst (GET_points_bbox min_lat max_lat min_lon max_lon
              (snd (POST_points (mkCreate text v) w))) = Ok ms'
    /\ table (database (snd (POST_points (mkCreate text v) w)))
       = table (database w) ++ [r]
    /\ m = model_of_row r
    /\ Permutation ms'
         (ms ++ if in_closed_box min_lat max_lat min_lon max_lon r
                then [m] else []).
Proof.
  intros Hm Hq Hlat Hlon.
  destruct (POST_points_cases text v w) as [(x & y & _ & Hres & Ht) | (e & Hres & _)];
    [| congruence].
  rewrite Hres in Hm. injection Hm as <-.
  eexists _, _, (created_row w x y v).
  rewrite !GET_points_bbox_ok by assumption.
  split; [reflexivity |]. split; [reflexivity |].
  split; [exact Ht |]. split; [reflexivity |].
  rewrite Ht, List.filter_app. cbn [List.filter].
  set (old := List.filter _ (table (database w))).
  rewrite (merge_sort_Permutation row_id_le (old ++ _)).
  rewrite (merge_sort_Permutation row_id_le old) at 1.
  destruct (in_closed_box _ _ _ _ (created_row w x y v)).
  - now rewrite map_app.
  - now rewrite !app_nil_r.
Qed.


Lemma GET_points_bbox_ok_inv min_lat max_lat min_lon max_lon w ms :
  fst (GET_points_bbox min_lat max_lat min_lon max_lon w) = Ok ms ->
  bbox_query_errors min_lat max_lat min_lon max_lon = []
  /\ float_le min_lat max_lat = true
  /\ float_le min_lon max_lon = true.
Proof.
  unfold GET_points_bbox, get_db, read_points_in_bbox, bind, SessionLocal,
    try_finally, raise.
  destruct (bbox_query_errors _ _ _ _); [| discriminate].
  rewrite !float_gt_not_le.
  destruct (float_le min_lat max_lat); [| discriminate].
  destruct (float_le min_lon max_lon); [| discriminate].
  auto.
Qed.


Lemma in_closed_box_iff min_lat max_lat min_lon max_lon r :
  in_closed_box min_lat max_lat min_lon max_lon r = true
  <-> float_le min_lon (g_x (row_geom r)) = true
      /\ float_le (g_x (row_geom r)) max_lon = true
      /\ float_le min_lat (g_y (row_geom r)) = true
      /\ float_le (g_y (row_geom r)) max_lat = true.
Proof. unfold in_closed_box. rewrite !andb_true_iff. tauto. Qed.

(** X7: enlarging the rectangle never loses a point: when the first
    rectangle lies inside the second, every object that
    [get_example_points_in_bbox] returns for the first it returns for the
    second. *)
Theorem get_example_points_in_bbox_monotone (db : Session) (w : World)
    (min_lat1 max_lat1 min_lon1 max_lon1 : float)
    (min_lat2 max_lat2 min_lon2 max_lon2 : float) :
  float_le min_lat1 max_lat1 = true ->
  float_le min_lon1 max_lon1 = true ->
  float_le min_lat2 min_lat1 = true ->
  float_le max_lat1 max_lat2 = true ->
  float_le min_lon2 min_lon1 = true ->
  float_le max_lon1 max_lon2 = true ->
  exists os1 os2,
    fst (get_example_points_in_bbox db min_lat1 max_lat1 min_lon1 max_lon1 w)
      = Ok os1
    /\ fst (get_example_points_in_bbox db min_lat2 max_lat2 min_lon2 max_lon2 w)
       = Ok os2
    /\ incl os1 os2.
Proof.
  intros Hlat1 Hlon1 Hmin_lat Hmax_lat Hmin_lon Hmax_lon.
  assert (Hlat2 : float_le min_lat2 max_lat2 = true)
    by eauto using float_le_trans.
  assert (Hlon2 : float_le min_lon2 max_lon2 = true)
    by eauto using float_le_trans.
  unfold get_example_points_in_bbox, execute_scalars_all, run_select.
  cbn [fst whereclause order_by_id order_by_ExamplePoint_id where_
       select_ExamplePoint].
  rewrite (List.filter_ext _ _
             (fun r => intersects_envelope_closed_box _ _ _ _ r Hlat1 Hlon1)).
  rewrite (List.filter_ext _ _
             (fun r => intersects_envelope_closed_box _ _ _ _ r Hlat2 Hlon2)).
  eexists _, _. split; [reflexivity |]. split; [reflexivity |].
  intros o (r & <- & Hr)%in_map_iff. apply in_map.
  apply (Permutation_in r (merge_sort_Permutation row_id_le _)) in Hr.
  apply (Permutation_in r (Permutation_sym (merge_sort_Permutation row_id_le _))).
  apply filter_In in Hr as [Hin Hbox]. apply filter_In. split; [exact Hin |].
  apply in_closed_box_iff in Hbox as (? & ? & ? & ?).
  apply in_closed_box_iff. repeat split; eauto using float_le_trans.
Qed.

(** X8: a stored point whose longitude or latitude lies outside the degree
    ranges is served by [GET /points], but by no request to
    [GET /points/bbox]: whenever such a request succeeds, the rows it
    serves are rows of the table other than that one. *)
Theorem out_of_range_point_listed_not_queried (w : World) (r : Row) :
  In r (table (database w)) ->
  outside (-180) 180 (g_x (row_geom r)) \/ outside (-90) 90 (g_y (row_geom r)) ->
  (exists ms, fst (GET_points w) = Ok ms /\ In (model_of_row r) ms)
  /\ (forall min_lat max_lat min_lon max_lon ms,
        fst (GET_points_bbox min_lat max_lat min_lon max_lon w) = Ok ms ->
        exists rows,
          ms = map model_of_row rows
          /\ incl rows (table (database w))
          /\ ~ In r rows).
Proof.
  intros Hr Hout. split.
  - eexists. split; [apply GET_points_all | now apply in_map].
  - intros min_lat max_lat min_lon max_lon ms Hms.
    destruct (GET_points_bbox_ok_inv _ _ _ _ _ _ Hms) as (Hq & Hlat & Hlon).
    rewrite GET_points_bbox_ok in Hms by assumption.
    apply bbox_query_errors_nil_iff in Hq as (Ha & Hb & Hc & Hd).
    injection Hms as <-. eexists. split; [reflexivity |].
    assert (Hsub : forall r', In r' (merge_sort row_id_le
                     (List.filter (in_closed_box min_lat max_lat min_lon max_lon)
                                  (table (database w)))) ->
                   In r' (table (database w))
                   /\ in_closed_box min_lat max_lat min_lon max_lon r' = true).
    { intros r' Hr'.
      apply (Permutation_in r' (merge_sort_Permutation row_id_le _)) in Hr'.
      now apply filter_In in Hr'. }
    split; [intros r' Hr'; now apply Hsub |].
    intros [_ Hbox]%Hsub.
    apply in_closed_box_iff in Hbox as (Hx1 & Hx2 & Hy1 & Hy2).
    apply not_outside_iff in Ha as [Ha1 Ha2], Hb as [Hb1 Hb2],
        Hc as [Hc1 Hc2], Hd as [Hd1 Hd2].
    destruct Hout as [Hout | Hout]; revert Hout; apply not_outside_iff;
      split; eauto using float_le_trans.
Qed.

(** X16: what [GET /points/bbox] serves is part of what [GET /points]
    serves, and a bounding-box request changes no row. *)
Theorem GET_points_bbox_within_GET_points
    (min_lat max_lat min_lon max_lon : float) (w : World)
    (ms : list ExamplePointModel) :
  fst (GET_points_bbox min_lat max_lat min_lon max_lon w) = Ok ms ->
  (exists ms_all, fst (GET_points w) = Ok ms_all /\ incl ms ms_all)
  /\ table (database (snd (GET_points_bbox min_lat max_lat min_lon max_lon w)))
     = table (database w).
Proof.
  intros Hms. split; [| apply GET_points_bbox_table].
  destruct (GET_points_bbox_ok_inv _ _ _ _ _ _ Hms) as (Hq & Hlat & Hlon).
  rewrite GET_points_bbox_ok in Hms by assumption. injection Hms as <-.
  eexists. split; [apply GET_points_all |].
  intros m (r & <- & Hr)%in_map_iff. apply in_map.
  apply (Permutation_in r (merge_sort_Permutation row_id_le _)) in Hr.
  now apply filter_In in Hr.
Qed.

End Compositions.

(** ** The health check *)

Section Health.
Variable execute_text : Session -> string -> M unit.

(** X10: [GET /health] never raises: it answers that the database is up
    when the probe statement returns and that it is down when the probe
    raises, whatever the exception; and when the probe leaves the session
    counters alone, one session has been created and one closed. *)
Theorem GET_health_never_raises (w : World) :
  fst (GET_health execute_text w)
    = Ok (if is_ok (fst (execute_text (opened w) "SELECT 1" (snd (SessionLocal w))))
          then health_ok else health_degraded)
  /\ ((forall o c db sql, preserves (sessions_are o c) (execute_text db sql)) ->
      opened (snd (GET_health execute_text w)) = S (opened w)
      /\ closed (snd (GET_health execute_text w)) = S (closed w)).
Proof.
  unfold GET_health, get_db, healthcheck, try_except, bind, SessionLocal,
    try_finally, ret. cbn [fst snd].
  set (w1 := mkWorld _ _ _ _ _ _).
  split.
  - now destruct (execute_text (opened w) "SELECT 1" w1) as [[u | e] w2].
  - intros Hp.
    destruct (Hp (S (opened w)) (closed w) (opened w) "SELECT 1" w1) as [Ho Hc];
      [now split |].
    destruct (execute_text (opened w) "SELECT 1" w1) as [[u | e] w2];
      cbn in *; now rewrite Ho, Hc.
Qed.

End Health.

(** ** Settings and the database URL *)

Lemma string_length_append (a b : string) :
  String.length (a ++ b)%string = (String.length a + String.length b)%nat.
Proof. induction a as [| c a IH]; simpl; [reflexivity | now rewrite IH]. Qed.

Lemma string_append_inv_head (p a b : string) :
  (p ++ a = p ++ b)%string -> a = b.
Proof. induction p as [| c p IH]; simpl; [easy |]. intros [= E]. auto. Qed.

Lemma string_append_inv_tail (t : string) : forall a b : string,
  (a ++ t = b ++ t)%string -> a = b.
Proof.
  induction a as [| c a IH]; intros [| d b] E; simpl in E.
  - reflexivity.
  - apply (f_equal String.length) in E.
    rewrite !string_length_append in E. simpl in E. lia.
  - apply (f_equal String.length) in E.
    rewrite !string_length_append in E. simpl in E. lia.
  - injection E as -> E. f_equal. now apply IH.
Qed.

(** X11: the URL of the settings tells the mode: settings with the same
    [database_url] are both in development or both not, and in development
    they have the same SpatiaLite path. *)
Theorem database_url_tells_mode (s1 s2 : settings.Settings) :
  settings.database_url s1 = settings.database_url s2 ->
  settings.is_development s1 = settings.is_development s2
  /\ (settings.is_development s1 = true ->
      settings.SPATIALITE_PATH s1 = settings.SPATIALITE_PATH s2).
Proof.
  unfold settings.database_url.
  destruct (settings.is_development s1), (settings.is_development s2);
    simpl; intros E; try discriminate.
  - injection E as E. auto.
  - split; [reflexivity | discriminate].
Qed.

(** X12: [alembic/env.py] and the settings compute the same mode from the
    same [ENVIRONMENT]; in development they compute the same URL from the
    same SpatiaLite path; in production, given the same user, password,
    port and database, the URL of [env.py] is the URL of the settings
    exactly when the settings' host is [localhost]. *)
Theorem env_url_agrees_with_settings (environ : gmap string string)
    (s : settings.Settings) :
  settings.ENVIRONMENT s = env.get environ "ENVIRONMENT" "development" ->
  settings.SPATIALITE_PATH s = env.get environ "SPATIALITE_PATH" "./geo.db" ->
  env.is_development environ = settings.is_development s
  /\ (settings.is_development s = true ->
      env.database_url environ = env.Value (settings.database_url s))
  /\ (settings.is_development s = false ->
      environ !! "POSTGRES_USER" = Some (settings.POSTGRES_USER s) ->
      environ !! "POSTGRES_PASSWORD" = Some (settings.POSTGRES_PASSWORD s) ->
      environ !! "POSTGRES_PORT" = Some (settings.POSTGRES_PORT s) ->
      environ !! "POSTGRES_DB" = Some (settings.POSTGRES_DB s) ->
      exists u,
        env.database_url environ = env.Value u
        /\ (u = settings.database_url s
            <-> settings.POSTGRES_HOST s = "localhost")).
Proof.
  intros Henv Hpath.
  assert (Hmode : env.is_development environ = settings.is_development s)
    by (unfold env.is_development, env.environment, settings.is_development;
        now rewrite Henv).
  split; [exact Hmode |]. split.
  - intros Hdev. unfold env.database_url, settings.database_url.
    now rewrite Hmode, Hdev, Hpath.
  - intros Hprod Hu Hpw Hport Hdb.
    unfold env.database_url, settings.database_url, env.getitem.
    rewrite Hmode, Hprod, Hu, Hpw, Hport, Hdb.
    eexists. split; [reflexivity |].
    split.
    + intros E.
      apply (string_append_inv_head "postgresql+psycopg2://") in E.
      apply string_append_inv_head in E.
      apply (string_append_inv_head ":") in E.
      apply string_append_inv_head in E.
      apply (string_append_inv_head "@") in E.
      change ("@localhost:" ++ ?x)%string with ("@" ++ "localhost" ++ ":" ++ x)%string in E.
      symmetry. eapply string_append_inv_tail. exact E.
    + now intros ->.
Qed.

(** X13: outside development the URL of [alembic/env.py] exists exactly
    when the user, the password, the port and the database are all set;
    otherwise a [KeyError] names a variable that is not set.  In no mode
    does the URL depend on [POSTGRES_HOST]. *)
Theorem env_database_url_needs_variables (environ : gmap string string) :
  (env.is_development environ = false ->
     ((exists u, env.database_url environ = env.Value u)
      <-> is_Some (environ !! "POSTGRES_USER")
          /\ is_Some (environ !! "POSTGRES_PASSWORD")
          /\ is_Some (environ !! "POSTGRES_PORT")
          /\ is_Some (environ !! "POSTGRES_DB"))
     /\ (forall key, env.database_url environ = env.KeyError key ->
                     environ !! key = None))
  /\ (forall host,
        env.database_url (<["POSTGRES_HOST" := host]> environ)
        = env.database_url environ).
Proof.
  split.
  - intros Hprod. unfold env.database_url, env.getitem. rewrite Hprod.
    destruct (environ !! "POSTGRES_USER") eqn:Hu;
      [destruct (environ !! "POSTGRES_PASSWORD") eqn:Hpw;
       [destruct (environ !! "POSTGRES_PORT") eqn:Hport;
        [destruct (environ !! "POSTGRES_DB") eqn:Hdb |] |] |];
      (split; [split |]);
      try (intros [u Hv]; discriminate Hv);
      try (intros (A & B & C & D); first [now destruct A | now destruct B
                                          | now destruct C | now destruct D]);
      try (intros key [= <-]; assumption);
      try (intros key Hk; discriminate Hk).
    + intros _. repeat split; eauto.
    + intros _. eauto.
  - intros host.
    unfold env.database_url, env.is_development, env.environment, env.get,
      env.getitem.
    now rewrite !lookup_insert_ne by discriminate.
Qed.

(** ** The connect hook of the engine *)

Section EngineFacts.
Import sqlite3 db.
Variable installed : string -> bool.

Lemma existsb_mod_spatialite (l : list string) :
  existsb (String.eqb "mod_spatialite") (l ++ ["mod_spatialite"]) = true.
Proof. rewrite existsb_app. cbn. now rewrite orb_true_r. Qed.

Lemma load_spatialite_ok (c : Connection) :
  installed "mod_spatialite" = true ->
  load_spatialite installed c
  = (None, mkConnection false (extensions c ++ ["mod_spatialite"])
                        (executed c ++ ["SELECT InitSpatialMetaData(1);"])).
Proof.
  intros Hi.
  unfold load_spatialite, andthen, enable_load_extension, load_extension,
    execute.
  cbn [load_extension_enabled extensions executed]. rewrite Hi.
  cbn [load_extension_enabled extensions executed].
  now rewrite existsb_mod_spatialite.
Qed.

(** X14: on any connection, when [mod_spatialite] can be loaded the hook
    returns with the extension loaded, the spatial metadata initialised
    and extension loading switched off again; when it cannot be loaded the
    hook raises before anything is executed and leaves extension loading
    switched on. *)
Theorem load_spatialite_outcome (c : Connection) :
  (installed "mod_spatialite" = true ->
   exists c',
     load_spatialite installed c = (None, c')
     /\ load_extension_enabled c' = false
     /\ extensions c' = extensions c ++ ["mod_spatialite"]
     /\ executed c' = executed c ++ ["SELECT InitSpatialMetaData(1);"])
  /\ (installed "mod_spatialite" = false ->
      exists e c',
        load_spatialite installed c = (Some e, c')
        /\ load_extension_enabled c' = true
        /\ extensions c' = extensions c
        /\ executed c' = executed c).
Proof.
  split; intros Hi.
  - rewrite load_spatialite_ok by exact Hi. eexists. repeat split.
  - unfold load_spatialite, andthen, enable_load_extension, load_extension.
    cbn [load_extension_enabled extensions executed]. rewrite Hi.
    eexists _, _. repeat split.
Qed.

(** X15: every connection obtained from the engine that [_create_engine]
    builds has [mod_spatialite] loaded and the spatial metadata initialised
    exactly in development, and never has extension loading left enabled;
    the engine is created for the URL of the settings. *)
Theorem connect_create_engine (s : settings.Settings) (c : Connection) :
  connect (_create_engine installed s) = (None, c) ->
  url (_create_engine installed s) = settings.database_url s
  /\ load_extension_enabled c = false
  /\ (In "mod_spatialite" (extensions c)
      <-> settings.is_development s = true)
  /\ (In "SELECT InitSpatialMetaData(1);" (executed c)
      <-> settings.is_development s = true).
Proof.
  unfold _create_engine, connect.
  destruct (settings.is_development s).
  - cbn [connect_listeners listens_for_connect create_engine app fold_left].
    unfold andthen at 1.
    destruct (installed "mod_spatialite") eqn:Hi.
    + rewrite load_spatialite_ok by exact Hi.
      intros [= <-]. split; [reflexivity |]. cbn. intuition.
    + unfold load_spatialite, andthen, enable_load_extension, load_extension.
      cbn [load_extension_enabled extensions executed]. rewrite Hi.
      discriminate.
  - cbn. intros [= <-]. split; [reflexivity |]. cbn. intuition discriminate.
Qed.

End EngineFacts.

(** ** Instances of the further properties *)

Lemma GET_points_after_POST_witness :
  fst (POST_points london example_world) = Ok london_record
  /\ exists ms ms',
       fst (GET_points example_world) = Ok ms
       /\ fst (GET_points (snd (POST_points london example_world))) = Ok ms'
       /\ Permutation ms' (ms ++ [london_record]).
Proof.
  split; [reflexivity |].
  apply (GET_points_after_POST "POINT(51.51999 -0.10684)" (mkFloat 425 1)
           example_world london_record).
  reflexivity.
Defined.

Lemma GET_points_bbox_after_POST_witness :
  fst (POST_points london example_world) = Ok london_record
  /\ bbox_query_errors (float_of_Z (-1)) (float_of_Z 1)
       (float_of_Z 50) (float_of_Z 52) = []
  /\ exists ms ms' r,
       fst (GET_points_bbox (float_of_Z (-1)) (float_of_Z 1)
              (float_of_Z 50) (float_of_Z 52) example_world) = Ok ms
       /\ fst (GET_points_bbox (float_of_Z (-1)) (float_of_Z 1)
                 (float_of_Z 50) (float_of_Z 52)
                 (snd (POST_points london example_world))) = Ok ms'
       /\ table (database (snd (POST_points london example_world)))
          = table (database example_world) ++ [r]
       /\ london_record = model_of_row r
       /\ Permutation ms'
            (ms ++ if in_closed_box (float_of_Z (-1)) (float_of_Z 1)
                        (float_of_Z 50) (float_of_Z 52) r
                   then [london_record] else []).
Proof.
  split; [reflexivity |]. split; [reflexivity |].
  apply (GET_points_bbox_after_POST "POINT(51.51999 -0.10684)" (mkFloat 425 1)
           example_world london_record (float_of_Z (-1)) (float_of_Z 1)
           (float_of_Z 50) (float_of_Z 52)); reflexivity.
Defined.

Lemma get_example_points_in_bbox_monotone_witness :
  float_le (float_of_Z 0) (float_of_Z 1) = true
  /\ float_le (float_of_Z (-5)) (float_of_Z 0) = true
  /\ float_le (float_of_Z 1) (float_of_Z 5) = true
  /\ exists os1 os2,
       fst (get_example_points_in_bbox 0%nat (float_of_Z 0) (float_of_Z 1)
              (float_of_Z 0) (float_of_Z 1) example_world) = Ok os1
       /\ fst (get_example_points_in_bbox 0%nat (float_of_Z (-5)) (float_of_Z 5)
                 (float_of_Z (-5)) (float_of_Z 5) example_world) = Ok os2
       /\ incl os1 os2.
Proof.
  repeat (split; [reflexivity |]).
  apply (get_example_points_in_bbox_monotone 0%nat example_world
           (float_of_Z 0) (float_of_Z 1) (float_of_Z 0) (float_of_Z 1)
           (float_of_Z (-5)) (float_of_Z 5) (float_of_Z (-5)) (float_of_Z 5));
    reflexivity.
Defined.

Lemma out_of_range_point_listed_not_queried_witness :
  In far_row (table (database far_world))
  /\ outside (-180) 180 (g_x (row_geom far_row))
  /\ (exists ms, fst (GET_points far_world) = Ok ms /\ In (model_of_row far_row) ms)
  /\ (forall min_lat max_lat min_lon max_lon ms,
        fst (GET_points_bbox min_lat max_lat min_lon max_lon far_world) = Ok ms ->
        exists rows,
          ms = map model_of_row rows
          /\ incl rows (table (database far_world))
          /\ ~ In far_row rows).
Proof.
  assert (Hin : In far_row (table (database far_world))) by (left; reflexivity).
  assert (Hout : outside (-180) 180 (g_x (row_geom far_row)))
    by (right; reflexivity).
  split; [exact Hin |]. split; [exact Hout |].
  apply (out_of_range_point_listed_not_queried far_world far_row Hin).
  left. exact Hout.
Defined.

Lemma GET_health_never_raises_witness :
  (forall o c db sql, preserves (sessions_are o c) (probe_down db sql))
  /\ fst (GET_health probe_down example_world) = Ok health_degraded
  /\ opened (snd (GET_health probe_down example_world)) = S (opened example_world)
  /\ closed (snd (GET_health probe_down example_world)) = S (closed example_world).
Proof.
  assert (Hp : forall o c db sql, preserves (sessions_are o c) (probe_down db sql))
    by (intros o c db sql w Hw; exact Hw).
  split; [exact Hp |].
  destruct (GET_health_never_raises probe_down example_world) as [Hres Hs].
  split; [exact Hres | exact (Hs Hp)].
Defined.

Lemma GET_points_bbox_within_GET_points_witness :
  fst (GET_points_bbox (float_of_Z (-1)) (float_of_Z 1)
         (float_of_Z (-1)) (float_of_Z 1) example_world)
    = Ok [mkModel 1 (Some 10) "POINT (1 1)" (mkFloat 425 1)]
  /\ (exists ms_all,
        fst (GET_points example_world) = Ok ms_all
        /\ incl [mkModel 1 (Some 10) "POINT (1 1)" (mkFloat 425 1)] ms_all)
  /\ table (database (snd (GET_points_bbox (float_of_Z (-1)) (float_of_Z 1)
                             (float_of_Z (-1)) (float_of_Z 1) example_world)))
     = table (database example_world).
Proof.
  split; [reflexivity |].
  apply (GET_points_bbox_within_GET_points (float_of_Z (-1)) (float_of_Z 1)
           (float_of_Z (-1)) (float_of_Z 1) example_world).
  reflexivity.
Defined.

Lemma database_url_tells_mode_witness :
  settings.database_url settings.defaults
    = settings.database_url
        (settings.mkSettings "DEVELOPMENT" "./geo.db" "a" "b" "c" "d" "e")
  /\ settings.is_development settings.defaults
     = settings.is_development
         (settings.mkSettings "DEVELOPMENT" "./geo.db" "a" "b" "c" "d" "e")
  /\ (settings.is_development settings.defaults = true ->
      settings.SPATIALITE_PATH settings.defaults
      = settings.SPATIALITE_PATH
          (settings.mkSettings "DEVELOPMENT" "./geo.db" "a" "b" "c" "d" "e")).
Proof.
  split; [reflexivity |].
  apply (database_url_tells_mode settings.defaults
           (settings.mkSettings "DEVELOPMENT" "./geo.db" "a" "b" "c" "d" "e")).
  reflexivity.
Defined.

Lemma env_url_agrees_with_settings_witness :
  settings.ENVIRONMENT production_settings
    = env.get production_environ "ENVIRONMENT" "development"
  /\ settings.SPATIALITE_PATH production_settings
     = env.get production_environ "SPATIALITE_PATH" "./geo.db"
  /\ settings.is_development production_settings = false
  /\ exists u,
       env.database_url production_environ = env.Value u
       /\ (u = settings.database_url production_settings
           <-> settings.POSTGRES_HOST production_settings = "localhost").
Proof.
  split; [reflexivity |]. split; [reflexivity |]. split; [reflexivity |].
  apply (proj2 (proj2 (env_url_agrees_with_settings production_environ
                         production_settings eq_refl eq_refl)));
    reflexivity.
Defined.

Lemma env_database_url_needs_variables_witness :
  env.is_development production_environ = false
  /\ ((exists u, env.database_url production_environ = env.Value u)
      <-> is_Some (production_environ !! "POSTGRES_USER")
          /\ is_Some (production_environ !! "POSTGRES_PASSWORD")
          /\ is_Some (production_environ !! "POSTGRES_PORT")
          /\ is_Some (production_environ !! "POSTGRES_DB"))
  /\ (forall key, env.database_url production_environ = env.KeyError key ->
                  production_environ !! key = None).
Proof.
  split; [reflexivity |].
  apply (proj1 (env_database_url_needs_variables production_environ)).
  reflexivity.
Defined.

Lemma load_spatialite_outcome_witness :
  exists c',
    db.load_spatialite (fun _ => true) sqlite3.new_connection = (None, c')
    /\ sqlite3.load_extension_enabled c' = false
    /\ sqlite3.extensions c'
       = sqlite3.extensions sqlite3.new_connection ++ ["mod_spatialite"]
    /\ sqlite3.executed c'
       = sqlite3.executed sqlite3.new_connection
         ++ ["SELECT InitSpatialMetaData(1);"].
Proof.
  apply (proj1 (load_spatialite_outcome (fun _ => true) sqlite3.new_connection)).
  reflexivity.
Defined.

Lemma connect_create_engine_witness :
  db.connect (db._create_engine (fun _ => true) settings.defaults)
    = (None, sqlite3.mkConnection false ["mod_spatialite"]
               ["SELECT InitSpatialMetaData(1);"])
  /\ db.url (db._create_engine (fun _ => true) settings.defaults)
     = settings.database_url settings.defaults
  /\ sqlite3.load_extension_enabled
       (sqlite3.mkConnection false ["mod_spatialite"]
          ["SELECT InitSpatialMetaData(1);"]) = false
  /\ (In "mod_spatialite"
        (sqlite3.extensions
           (sqlite3.mkConnection false ["mod_spatialite"]
              ["SELECT InitSpatialMetaData(1);"]))
      <-> settings.is_development settings.defaults = true)
  /\ (In "SELECT InitSpatialMetaData(1);"
        (sqlite3.executed
           (sqlite3.mkConnection false ["mod_spatialite"]
              ["SELECT InitSpatialMetaData(1);"]))
      <-> settings.is_development settings.defaults = true).
Proof.
  split; [reflexivity |].
  apply (connect_create_engine (fun _ => true) settings.defaults).
  reflexivity.
Defined.
